(** * A shallow embedding of torch_uncertainty's losses and classification
    routines.

    Sources: [torch_uncertainty/losses.py] (ELBOLoss, NIGLoss, DECLoss) and
    [torch_uncertainty/routines/classification.py] (ClassificationSingle,
    ClassificationEnsemble).

    Modelling conventions.
    - Tensor arithmetic is exact arithmetic on [Q]; transcendental
      element-wise functions (log, lgamma, digamma, softmax, sigmoid,
      entr) are Section variables, so that every statement holds for any
      implementation of them. [ELBOLoss.forward] and [KLDiv] are
      parametrised by the rounding of each tensor operation: [f32_round]
      (float32, round to nearest even) or [exact].
    - Python exceptions are the constructors of [py_error]; a fallible
      computation returns [res A], with a small error monad.
    - A Python attribute that may not have been assigned yet is an
      [option]; reading it when it is [None] raises [AttributeError].
    - A Python [None] argument is [None] of an [option]. *)

From Stdlib Require Import List String Bool ZArith QArith Qminmax Qabs Lia Lqa.
Import ListNotations.

(* ------------------------------------------------------------------ *)
(** ** Python exceptions and the error monad *)

Inductive py_error :=
| ValueError
| TypeError
| AttributeError
| IndexError
| RuntimeError
| ZeroDivisionError
| UnboundLocalError.

Inductive res (A : Type) :=
| Ok (a : A)
| Err (e : py_error).
Arguments Ok {A} a.
Arguments Err {A} e.

Definition bind {A B} (m : res A) (k : A -> res B) : res B :=
  match m with
  | Ok a => k a
  | Err e => Err e
  end.

Notation "x <- m ;; k" := (bind m (fun x => k))
  (at level 61, m at next level, right associativity).

(** Python comparisons and true division on possibly-[None] operands:
    [None > 0] and [n / None] raise [TypeError]. *)
Definition py_gt_Z (x : option Z) (y : Z) : res bool :=
  match x with
  | Some a => Ok (Z.ltb y a)
  | None => Err TypeError
  end.

Definition Qltb (a b : Q) : bool := negb (Qle_bool b a).

Definition py_gt_Q (x : option Q) (y : Q) : res bool :=
  match x with
  | Some a => Ok (Qltb y a)
  | None => Err TypeError
  end.

Definition py_truediv (x y : option Z) : res Q :=
  match x, y with
  | Some a, Some b =>
      if Z.eqb b 0 then Err ZeroDivisionError
      else Ok (inject_Z a / inject_Z b)
  | _, _ => Err TypeError
  end.

Definition is_none {A} (o : option A) : bool :=
  match o with None => true | Some _ => false end.

Definition sumQ (l : list Q) : Q := fold_right Qplus 0 l.

Definition meanQ (l : list Q) : Q := sumQ l / inject_Z (Z.of_nat (List.length l)).

Fixpoint zipWith {A B C} (f : A -> B -> C) (l1 : list A) (l2 : list B)
    : list C :=
  match l1, l2 with
  | x :: l1', y :: l2' => f x y :: zipWith f l1' l2'
  | _, _ => []
  end.

Definition relu (x : Q) : Q := Qmax 0 x.

(** A two-dimensional tensor: its last dimension and its rows. *)
Record tensor2 := {
  cols : nat;
  rows : list (list Q)
}.

(** [F.one_hot(targets, num_classes)]: a class index out of range raises. *)
Definition one_hot_row (num_classes t : nat) : list Q :=
  map (fun i => if Nat.eqb i t then 1 else 0) (seq 0 num_classes).

Definition one_hot (targets : list nat) (num_classes : nat)
    : res (list (list Q)) :=
  if forallb (fun t => Nat.ltb t num_classes) targets
  then Ok (map (one_hot_row num_classes) targets)
  else Err RuntimeError.

(** The three reductions accepted by the losses' constructors. *)
Definition valid_reduction (reduction : string) : bool :=
  (reduction =? "none")%string || (reduction =? "mean")%string
  || (reduction =? "sum")%string.

(** A reduced loss: a scalar, or the unreduced per-element values. *)
Inductive loss_out :=
| Scalar (q : Q)
| Elementwise (l : list Q).

Definition reduce (reduction : string) (loss : list Q) : loss_out :=
  if (reduction =? "mean")%string then Scalar (meanQ loss)
  else if (reduction =? "sum")%string then Scalar (sumQ loss)
  else Elementwise loss.

(* ------------------------------------------------------------------ *)
(** ** [DECLoss] (losses.py, lines 179-354) *)

Module DEC.

Record DECLoss := {
  annealing_step : option Z;
  reg_weight : option Q;
  loss_type : string;
  reduction : string
}.

(** [DECLoss.__init__]. *)
Definition init (annealing_step : option Z) (reg_weight : option Q)
    (loss_type : string) (reduction : string) : res DECLoss :=
  if match reg_weight with Some w => Qltb w 0 | None => false end
  then Err ValueError
  else if match annealing_step with Some a => Z.leb a 0 | None => false end
  then Err ValueError
  else if negb (valid_reduction reduction) then Err ValueError
  else if negb (existsb (String.eqb loss_type) ["mse"; "log"; "digamma"]%string)
  then Err ValueError
  else Ok {| annealing_step := annealing_step; reg_weight := reg_weight;
             loss_type := loss_type; reduction := reduction |}.

(** The selection of [annealing_coef] in [DECLoss.forward] (lines
    322-343), with Python's short-circuit [and]. *)
Definition annealing_coef (self : DECLoss) (current_epoch : option Z)
    : res Q :=
  if is_none self.(reg_weight) && is_none self.(annealing_step) then Ok 0
  else
    b1 <- (if is_none self.(reg_weight) then
             c <- py_gt_Z self.(annealing_step) 0 ;;
             if c then py_gt_Z current_epoch 0 else Ok false
           else Ok false) ;;
    if b1 then
      x <- py_truediv current_epoch self.(annealing_step) ;; Ok (Qmin 1 x)
    else
      b2 <- (if is_none self.(annealing_step) then py_gt_Q self.(reg_weight) 0
             else Ok false) ;;
      if b2 then
        match self.(reg_weight) with Some w => Ok w | None => Err TypeError end
      else
        x <- py_truediv current_epoch self.(annealing_step) ;; Ok (Qmin 1 x).

Section Forward.

(** Element-wise [torch.log], [torch.lgamma] and [torch.digamma]. *)
Variables (log lgamma digamma : Q -> Q).

(** [_mse_loss], one sample (a row of evidence and its one-hot target). *)
Definition mse_loss (evidence targets : list Q) : Q :=
  let alpha := map (fun e => relu e + 1) evidence in
  let strength := sumQ alpha in
  sumQ (zipWith (fun t a => (t - a / strength) ^ 2) targets alpha)
  + sumQ (map (fun a => a * (strength - a)
                         / (strength * strength * (strength + 1))) alpha).

(** [_log_loss], one sample. *)
Definition log_loss (evidence targets : list Q) : Q :=
  let alpha := map (fun e => relu e + 1) evidence in
  let strength := sumQ alpha in
  sumQ (zipWith (fun t a => t * (log strength - log a)) targets alpha).

(** [_digamma_loss], one sample. *)
Definition digamma_loss (evidence targets : list Q) : Q :=
  let alpha := map (fun e => relu e + 1) evidence in
  let strength := sumQ alpha in
  sumQ (zipWith (fun t a => t * (digamma strength - digamma a)) targets alpha).

(** [_kldiv_reg], one sample. *)
Definition kldiv_reg (num_classes : nat) (evidence targets : list Q) : Q :=
  let alpha := map (fun e => relu e + 1) evidence in
  let kl_alpha := zipWith (fun a t => (a - 1) * (1 - t) + 1) alpha targets in
  let ones := repeat 1 num_classes in
  let sum_kl_alpha := sumQ kl_alpha in
  let first_term :=
    lgamma sum_kl_alpha - sumQ (map lgamma kl_alpha)
    + sumQ (map lgamma ones) - lgamma (sumQ ones) in
  let second_term :=
    sumQ (zipWith (fun k o => (k - o) * (digamma k - digamma sum_kl_alpha))
            kl_alpha ones) in
  first_term + second_term.

(** [DECLoss.forward]. *)
Definition forward (self : DECLoss) (evidence : tensor2) (targets : list nat)
    (current_epoch : option Z) : res loss_out :=
  chk <- (match self.(annealing_step) with
          | Some a => Ok (Z.ltb 0 a && is_none current_epoch)
          | None => Ok false
          end) ;;
  if chk then Err ValueError else
  t <- one_hot targets evidence.(cols) ;;
  loss_dirichlet <-
    (if (self.(loss_type) =? "mse")%string
     then Ok (zipWith mse_loss evidence.(rows) t)
     else if (self.(loss_type) =? "log")%string
     then Ok (zipWith log_loss evidence.(rows) t)
     else if (self.(loss_type) =? "digamma")%string
     then Ok (zipWith digamma_loss evidence.(rows) t)
     else Err UnboundLocalError) ;;
  annealing_coef <- annealing_coef self current_epoch ;;
  let loss_reg := zipWith (kldiv_reg evidence.(cols)) evidence.(rows) t in
  Ok (reduce self.(reduction)
        (zipWith (fun d r => d + annealing_coef * r) loss_dirichlet loss_reg)).

End Forward.

End DEC.

(* ------------------------------------------------------------------ *)
(** ** [KLDiv] and [ELBOLoss] (losses.py, lines 12-102) *)

(** Round-to-nearest-even on the float32 format: [round_half_even n d]
    is the integer nearest to [n / d] (for [d > 0]), ties to even. *)
Definition round_half_even (n d : Z) : Z :=
  let q := Z.div n d in
  let r := Z.modulo n d in
  match Z.compare (2 * r) d with
  | Lt => q
  | Gt => (q + 1)%Z
  | Eq => if Z.even q then q else (q + 1)%Z
  end.

(** [f32_round x] is the float32 value nearest to [x] (ties to even):
    a 24-bit significand [m] scaled by [2 ^ e], with the exponent of the
    subnormal range below [2 ^ -126]; overflow to infinity is not
    modelled. [e0] is [floor (log2 |x|)]. *)
Definition f32_round (x : Q) : Q :=
  let x := Qred x in
  let a := Z.abs (Qnum x) in
  let b := Zpos (Qden x) in
  if Z.eqb a 0 then 0 else
  let k := (Z.log2 a - Z.log2 b)%Z in
  let e0 :=
    if Z.leb (b * 2 ^ Z.max 0 k) (a * 2 ^ Z.max 0 (- k))%Z then k
    else (k - 1)%Z in
  let e := (Z.max e0 (-126) - 23)%Z in
  let '(n, d) :=
    if Z.leb e 0 then ((a * 2 ^ (- e))%Z, b) else (a, (b * 2 ^ e)%Z) in
  let m := round_half_even n d in
  let mag :=
    if Z.leb 0 e then inject_Z (m * 2 ^ e) else m # Z.to_pos (2 ^ (- e)) in
  if Z.ltb (Qnum x) 0 then - mag else mag.

(** Exact arithmetic: no rounding. *)
Definition exact (x : Q) : Q := x.

Module ELBO.

Record ELBOLoss := {
  kl_weight : Q;
  num_samples : nat
}.

(** [ELBOLoss.__init__]; [criterion_is_class] is
    [isinstance(criterion, type)]. *)
Definition init (criterion_is_class : bool) (kl_weight : Q) (num_samples : Z)
    : res ELBOLoss :=
  if criterion_is_class then Err ValueError
  else if Qltb kl_weight 0 then Err ValueError
  else if Z.ltb num_samples 1 then Err ValueError
  else Ok {| kl_weight := kl_weight; num_samples := Z.to_nat num_samples |}.

Section Forward.

(** The tensors of [KLDiv] and [ELBOLoss.forward] are float32 tensors:
    [rnd] rounds the exact result of each of their operations to the
    format ([f32_round] for float32, [exact] for exact arithmetic). The
    Python scalars [kl_weight] and [num_samples] are converted to the
    tensor's type before the operation. *)
Variable rnd : Q -> Q.

(** [KLDiv._kl_div]: starting from [torch.zeros(1)], adds
    [lvposterior - lprior] of each Bayesian module, as stored by its last
    forward pass. *)
Definition kl_div (bayesian_modules : list (Q * Q)) : Q :=
  fold_left
    (fun acc '(lvposterior, lprior) => rnd (acc + rnd (lvposterior - lprior)))
    bayesian_modules 0.

(** The network is stateful: a forward pass reads and updates its state
    (random draws of the weights) and leaves in the Bayesian modules the
    log-densities that [KLDiv] gathers. The criterion returns a float32
    value. *)
Variables (St X Y L : Type).
Variable model : St -> X -> L * St.
Variable bayesian_modules : St -> list (Q * Q).
Variable criterion : L -> Y -> Q.

(** The loop of [ELBOLoss.forward] (the two in-place additions per draw). *)
Fixpoint elbo_loop (self : ELBOLoss) (inputs : X) (targets : Y) (n : nat)
    (st : St) (aggregated_elbo : Q) : Q * St :=
  match n with
  | O => (aggregated_elbo, st)
  | S n' =>
      let '(logits, st') := model st inputs in
      let aggregated_elbo := rnd (aggregated_elbo + criterion logits targets) in
      let aggregated_elbo :=
        rnd (aggregated_elbo
             + rnd (rnd self.(kl_weight) * kl_div (bayesian_modules st'))) in
      elbo_loop self inputs targets n' st' aggregated_elbo
  end.

(** [ELBOLoss.forward]. *)
Definition forward (self : ELBOLoss) (st : St) (inputs : X) (targets : Y)
    : Q * St :=
  let '(aggregated_elbo, st') :=
    elbo_loop self inputs targets self.(num_samples) st 0 in
  (rnd (aggregated_elbo / rnd (inject_Z (Z.of_nat self.(num_samples)))), st').

(** The per-draw terms [criterion(logits, targets) + kl_weight * kl]. *)
Fixpoint draws (self : ELBOLoss) (inputs : X) (targets : Y) (n : nat)
    (st : St) : list Q :=
  match n with
  | O => []
  | S n' =>
      let '(logits, st') := model st inputs in
      (criterion logits targets
       + rnd self.(kl_weight) * kl_div (bayesian_modules st'))
      :: draws self inputs targets n' st'
  end.

End Forward.

End ELBO.

(* ------------------------------------------------------------------ *)
(** ** [NIGLoss] (losses.py, lines 105-176) *)

Module NIG.

Record NIGLoss := {
  reg_weight : Q;
  reduction : string
}.

(** [NIGLoss.__init__]. *)
Definition init (reg_weight : Q) (reduction : string) : res NIGLoss :=
  if Qltb reg_weight 0 then Err ValueError
  else if negb (valid_reduction reduction) then Err ValueError
  else Ok {| reg_weight := reg_weight; reduction := reduction |}.

(** One element of the five inputs [gamma, v, alpha, beta, targets],
    taken at the same index of their common shape. *)
Record nig_point := {
  gamma : Q;
  v : Q;
  alpha : Q;
  beta : Q;
  target : Q
}.

(** The result of [forward]: a reduced scalar or the element-wise tensor. *)
Inductive nig_out :=
| NScalar (q : Q)
| NTensor (t : list (list Q)).

Section Forward.

Variables (log lgamma : Q -> Q) (pi : Q).

(** [_nig_nll], element-wise. *)
Definition nig_nll (p : nig_point) : Q :=
  let Gamma := 2 * p.(beta) * (1 + p.(v)) in
  (1 # 2) * log (pi / p.(v))
  - p.(alpha) * log Gamma
  + (p.(alpha) + (1 # 2)) * log (Gamma + p.(v) * (p.(target) - p.(gamma)) ^ 2)
  + lgamma p.(alpha)
  - lgamma (p.(alpha) + (1 # 2)).

(** [_nig_reg] on one row: the L1 norm of [targets - gamma] along
    dimension 1 (kept), times [2 * v + alpha]. *)
Definition nig_reg_row (row : list nig_point) : list Q :=
  let norm := sumQ (map (fun p => Qabs (p.(target) - p.(gamma))) row) in
  map (fun p => norm * (2 * p.(v) + p.(alpha))) row.

(** [NIGLoss.forward]. *)
Definition forward (self : NIGLoss) (inputs : list (list nig_point))
    : nig_out :=
  let loss :=
    map (fun row => zipWith (fun nll reg => nll + self.(reg_weight) * reg)
                      (map nig_nll row) (nig_reg_row row)) inputs in
  if (self.(reduction) =? "mean")%string then NScalar (meanQ (List.concat loss))
  else if (self.(reduction) =? "sum")%string then NScalar (sumQ (List.concat loss))
  else NTensor loss.

End Forward.

End NIG.

(* ------------------------------------------------------------------ *)
(** ** Tensors of rank 0 to 3 and the reductions the routines use *)

Module Tensor.

Inductive tensor :=
| T0 (q : Q)
| T1 (l : list Q)
| T2 (m : list (list Q))
| T3 (t : list (list (list Q))).

Definition ndim (t : tensor) : Z :=
  match t with T0 _ => 0 | T1 _ => 1 | T2 _ => 2 | T3 _ => 3 end%Z.

(** Transposition of a list of rows (the rows have a common length). *)
Fixpoint transpose {A} (m : list (list A)) : list (list A) :=
  match m with
  | [] => []
  | [r] => map (fun x => [x]) r
  | r :: m' => zipWith cons r (transpose m')
  end.

Fixpoint mapM {A B} (f : A -> res B) (l : list A) : res (list B) :=
  match l with
  | [] => Ok []
  | x :: l' => y <- f x ;; ys <- mapM f l' ;; Ok (y :: ys)
  end.

(** A reduction [f] along dimension [dim], with PyTorch's wrapping of a
    negative dimension and its [IndexError] ("Dimension out of range")
    outside [[-ndim, ndim)] (a 0-d tensor accepts [-1] and [0]). *)
Definition reduce_dim (f : list Q -> res Q) (dim : Z) (t : tensor)
    : res tensor :=
  let nd := Z.max 1 (ndim t) in
  let d := if Z.ltb dim 0 then (dim + nd)%Z else dim in
  if negb (Z.leb 0 d && Z.ltb d nd) then Err IndexError else
  match t, d with
  | T0 q, _ => q' <- f [q] ;; Ok (T0 q')
  | T1 l, _ => q <- f l ;; Ok (T0 q)
  | T2 m, 0%Z => l <- mapM f (transpose m) ;; Ok (T1 l)
  | T2 m, _ => l <- mapM f m ;; Ok (T1 l)
  | T3 t, 0%Z =>
      m <- mapM (fun x => mapM f (transpose x)) (transpose t) ;; Ok (T2 m)
  | T3 t, 1%Z => m <- mapM (fun x => mapM f (transpose x)) t ;; Ok (T2 m)
  | T3 t, _ => m <- mapM (mapM f) t ;; Ok (T2 m)
  end.

Definition sum_f (l : list Q) : res Q := Ok (sumQ l).
Definition mean_f (l : list Q) : res Q := Ok (meanQ l).

(** [max] along a dimension (its values); an empty dimension raises. *)
Definition max_f (l : list Q) : res Q :=
  match l with
  | [] => Err RuntimeError
  | x :: l' => Ok (fold_left Qmax l' x)
  end.

(** An element-wise function. *)
Definition tmap (g : Q -> Q) (t : tensor) : tensor :=
  match t with
  | T0 q => T0 (g q)
  | T1 l => T1 (map g l)
  | T2 m => T2 (map (map g) m)
  | T3 t => T3 (map (map (map g)) t)
  end.

(** [squeeze(-1)]: drops a last dimension of size 1, else no-op. *)
Definition squeeze_last (t : tensor) : tensor :=
  match t with
  | T2 m =>
      if forallb (fun r => Nat.eqb (List.length r) 1) m
      then T1 (map (fun r => hd 0 r) m) else t
  | T3 t' =>
      if forallb (forallb (fun r => Nat.eqb (List.length r) 1)) t'
      then T2 (map (map (fun r => hd 0 r)) t') else t
  | _ => t
  end.

(** [rearrange(x, "(n b) c -> b n c", n=n)] of einops: the first axis,
    of length [n * b], is split with [n] the outer (slowest) index; a
    length that [n] does not divide raises [EinopsError], a subclass of
    [RuntimeError]; with [n = 0], einops' [length % n] raises
    [ZeroDivisionError]. *)
Fixpoint chunks (n b : nat) {A} (l : list A) : list (list A) :=
  match n with
  | O => []
  | S n' => firstn b l :: chunks n' b (skipn b l)
  end.

Definition rearrange_nbc (n : nat) (logits : list (list Q))
    : res (list (list (list Q))) :=
  if Nat.eqb n 0 then Err ZeroDivisionError
  else if negb (Nat.eqb (Nat.modulo (List.length logits) n) 0)
  then Err RuntimeError
  else
    let b := Nat.div (List.length logits) n in
    Ok (transpose (chunks n b logits)).

End Tensor.

(* ------------------------------------------------------------------ *)
(** ** [ClassificationSingle] (routines/classification.py, lines 38-417) *)

Module Routine.
Import Tensor.

(** The mixing policies built by the constructor, with their parameters. *)
Inductive mix_policy :=
| MixErm
| MixTimm (mixup_alpha cutmix_alpha : Q) (mode : string) (num_classes : nat)
| MixMixup (alpha : Q) (mode : string) (num_classes : nat)
| MixMixupIO (alpha : Q) (mode : string) (num_classes : nat)
| MixRegMixup (alpha : Q) (mode : string) (num_classes : nat)
| MixWarping (alpha : Q) (mode : string) (num_classes : nat)
    (tau_max tau_std : Q).

(** The state of the test phase: the attributes set by [on_test_start]
    ([None] while unassigned, [Some None] when assigned [None]) and the
    metric pools, each recorded as the list of its updates. *)
Record test_state := {
  scaler : option (option Q);
  cal_model : option (option Q);
  test_cls_metrics : list (tensor * list nat);
  ts_cls_metrics : list (tensor * list nat);
  test_entropy_id : list tensor;
  test_ood_metrics : list (tensor * list nat);
  test_entropy_ood : list tensor;
  logged : list string
}.

Definition empty_test_state : test_state :=
  {| scaler := None; cal_model := None; test_cls_metrics := [];
     ts_cls_metrics := []; test_entropy_id := []; test_ood_metrics := [];
     test_entropy_ood := []; logged := [] |}.

Definition set_calibration (s c : option Q) (st : test_state) : test_state :=
  {| scaler := Some s; cal_model := Some c;
     test_cls_metrics := st.(test_cls_metrics);
     ts_cls_metrics := st.(ts_cls_metrics);
     test_entropy_id := st.(test_entropy_id);
     test_ood_metrics := st.(test_ood_metrics);
     test_entropy_ood := st.(test_entropy_ood); logged := st.(logged) |}.

Definition update_ts (u : tensor * list nat) (st : test_state) : test_state :=
  {| scaler := st.(scaler); cal_model := st.(cal_model);
     test_cls_metrics := st.(test_cls_metrics);
     ts_cls_metrics := st.(ts_cls_metrics) ++ [u];
     test_entropy_id := st.(test_entropy_id);
     test_ood_metrics := st.(test_ood_metrics);
     test_entropy_ood := st.(test_entropy_ood); logged := st.(logged) |}.

Definition update_id (u : tensor * list nat) (p : tensor) (st : test_state)
    : test_state :=
  {| scaler := st.(scaler); cal_model := st.(cal_model);
     test_cls_metrics := st.(test_cls_metrics) ++ [u];
     ts_cls_metrics := st.(ts_cls_metrics);
     test_entropy_id := st.(test_entropy_id) ++ [p];
     test_ood_metrics := st.(test_ood_metrics);
     test_entropy_ood := st.(test_entropy_ood);
     logged := st.(logged) ++ ["hp/test_entropy_id"%string] |}.

Definition update_ood (u : tensor * list nat) (st : test_state) : test_state :=
  {| scaler := st.(scaler); cal_model := st.(cal_model);
     test_cls_metrics := st.(test_cls_metrics);
     ts_cls_metrics := st.(ts_cls_metrics);
     test_entropy_id := st.(test_entropy_id);
     test_ood_metrics := st.(test_ood_metrics) ++ [u];
     test_entropy_ood := st.(test_entropy_ood); logged := st.(logged) |}.

Definition update_entropy_ood (p : tensor) (st : test_state) : test_state :=
  {| scaler := st.(scaler); cal_model := st.(cal_model);
     test_cls_metrics := st.(test_cls_metrics);
     ts_cls_metrics := st.(ts_cls_metrics);
     test_entropy_id := st.(test_entropy_id);
     test_ood_metrics := st.(test_ood_metrics);
     test_entropy_ood := st.(test_entropy_ood) ++ [p];
     logged := st.(logged) ++ ["hp/test_entropy_ood"%string] |}.

(** Reading an attribute that may be unassigned. *)
Definition get_attr {A} (a : option A) : res A :=
  match a with Some x => Ok x | None => Err AttributeError end.

Definition zeros_like (targets : list nat) : list nat := map (fun _ => 0%nat) targets.
Definition ones_like (targets : list nat) : list nat := map (fun _ => 1%nat) targets.

Section Single.

(** The network's inputs, its forward pass (logits, one row per sample)
    and the feature extractor used by kernel warping. *)
Variables (X : Type) (model_forward : X -> list (list Q)) (feats_forward : X -> X).
(** [F.softmax] on one row, [torch.sigmoid] and [torch.special.entr]. *)
Variables (softmax : list Q -> list Q) (sigmoid entr : Q -> Q).
(** The calibration set factory. *)
Variable CalSet : Type.
Variable learn_temperature : CalSet -> Q.
(** Training batches, the mixing policies applied to them, and the rest
    of the training step after mixing (batch formatting, forward pass and
    criterion) that yields the training loss. *)
Variables (TrainBatch : Type) (batch_inputs : TrainBatch -> X).
Variable apply_mix : mix_policy -> TrainBatch -> option X -> TrainBatch.
Variable train_loss : TrainBatch -> Q.

Record Single := {
  num_classes : nat;
  ood_detection : bool;
  use_logits : bool;
  use_entropy : bool;
  calibration_set : option CalSet;
  binary_cls : bool;
  mixtype : string;
  mixmode : string;
  dist_sim : string;
  mixup : option mix_policy
}.

(** [ClassificationSingle.__init__]: the criterion check (line 88), the
    alpha check (line 154) and the selection of the mixing policy by name
    (lines 164-199), which leaves [self.mixup] unassigned for any other
    name. Building metric pools raises nothing. *)
Definition init_single (num_classes : nat) (mixtype mixmode dist_sim : string)
    (kernel_tau_max kernel_tau_std mixup_alpha cutmix_alpha : Q)
    (ood_detection use_entropy use_logits : bool)
    (calibration_set : option CalSet) : res Single :=
  if Z.ltb 1 (Z.b2z use_logits + Z.b2z use_entropy) then Err ValueError
  else if Qltb mixup_alpha 0 || Qltb cutmix_alpha 0 then Err ValueError
  else
    let mixup :=
      if (mixtype =? "erm")%string then Some MixErm
      else if (mixtype =? "timm")%string
      then Some (MixTimm mixup_alpha cutmix_alpha mixmode num_classes)
      else if (mixtype =? "mixup")%string
      then Some (MixMixup mixup_alpha mixmode num_classes)
      else if (mixtype =? "mixup_io")%string
      then Some (MixMixupIO mixup_alpha mixmode num_classes)
      else if (mixtype =? "regmixup")%string
      then Some (MixRegMixup mixup_alpha mixmode num_classes)
      else if (mixtype =? "kernel_warping")%string
      then Some (MixWarping mixup_alpha mixmode num_classes
                   kernel_tau_max kernel_tau_std)
      else None in
    Ok {| num_classes := num_classes; ood_detection := ood_detection;
          use_logits := use_logits; use_entropy := use_entropy;
          calibration_set := calibration_set;
          binary_cls := Nat.eqb num_classes 1; mixtype := mixtype;
          mixmode := mixmode; dist_sim := dist_sim; mixup := mixup |}.

(** [ClassificationSingle.training_step]. *)
Definition training_step (self : Single) (batch : TrainBatch) : res Q :=
  batch <- (if (self.(mixtype) =? "kernel_warping")%string then
              if (self.(dist_sim) =? "emb")%string then
                m <- get_attr self.(mixup) ;;
                Ok (apply_mix m batch (Some (feats_forward (batch_inputs batch))))
              else if (self.(dist_sim) =? "inp")%string then
                m <- get_attr self.(mixup) ;;
                Ok (apply_mix m batch (Some (batch_inputs batch)))
              else Ok batch
            else
              m <- get_attr self.(mixup) ;; Ok (apply_mix m batch None)) ;;
  Ok (train_loss batch).

(** Modelled from the spec: [TemperatureScaler.fit] (post_processing,
    not under src/) fits a scalar temperature on the calibration set and
    returns the scaler, "fit(model, calibration_set) -> calibrated model
    wrapper"; the wrapper divides the model's logits by the temperature. *)
Definition temperature_fit (cs : CalSet) : Q := learn_temperature cs.

Definition temperature_scale (temperature : Q) (logits : list (list Q))
    : list (list Q) :=
  map (map (fun x => x / temperature)) logits.

(** [ClassificationSingle.on_test_start]. *)
Definition on_test_start (self : Single) (st : test_state) : test_state :=
  match self.(calibration_set) with
  | Some cs =>
      let s := temperature_fit cs in set_calibration (Some s) (Some s) st
  | None => set_calibration None None st
  end.

(** The probabilities of [test_step] (lines 301-304). *)
Definition probs_of (binary : bool) (logits : list (list Q)) : tensor :=
  if binary then squeeze_last (T2 (map (map sigmoid) logits))
  else T2 (map softmax logits).

(** [ClassificationSingle.test_step], lines 298-312: the probabilities
    and the OOD scores of a batch. *)
Definition test_scores (self : Single) (inputs : X) : res (tensor * tensor) :=
  let logits := model_forward inputs in
  let probs := probs_of self.(binary_cls) logits in
  confs <- reduce_dim max_f (-1) probs ;;
  ood_values <-
    (if self.(use_logits) then
       m <- reduce_dim max_f (-1) (T2 logits) ;; Ok (tmap Qopp m)
     else if self.(use_entropy) then reduce_dim sum_f (-1) (tmap entr probs)
     else Ok (tmap Qopp confs)) ;;
  Ok (probs, ood_values).

(** [ClassificationSingle.test_step]: the scores, then the calibrated
    pool (lines 314-321), then the routing on [dataloader_idx]. *)
Definition test_step (self : Single) (st : test_state) (inputs : X)
    (targets : list nat) (dataloader_idx : nat) : res test_state :=
  scores <- test_scores self inputs ;;
  let '(probs, ood_values) := scores in
  cal <- (match self.(calibration_set) with
          | None => Ok None
          | Some _ =>
              s <- get_attr st.(scaler) ;;
              match s with
              | None => Ok None
              | Some _ =>
                  c <- get_attr st.(cal_model) ;; Ok c
              end
          end) ;;
  let st := match cal with
            | Some t =>
                let cal_logits := temperature_scale t (model_forward inputs) in
                update_ts (T2 (map softmax cal_logits), targets) st
            | None => st
            end in
  if Nat.eqb dataloader_idx 0 then
    let st := update_id (probs, targets) probs st in
    if self.(ood_detection)
    then Ok (update_ood (ood_values, zeros_like targets) st)
    else Ok st
  else if self.(ood_detection) && Nat.eqb dataloader_idx 1 then
    Ok (update_entropy_ood probs (update_ood (ood_values, ones_like targets) st))
  else Ok st.

End Single.

Arguments num_classes {CalSet} _.
Arguments ood_detection {CalSet} _.
Arguments use_logits {CalSet} _.
Arguments use_entropy {CalSet} _.
Arguments calibration_set {CalSet} _.
Arguments binary_cls {CalSet} _.
Arguments mixtype {CalSet} _.
Arguments mixmode {CalSet} _.
Arguments dist_sim {CalSet} _.
Arguments mixup {CalSet} _.

End Routine.

(* ------------------------------------------------------------------ *)
(** ** [ClassificationEnsemble] (routines/classification.py, lines 420-679) *)

Module Ensemble.
Import Tensor Routine.

Section Ensemble.

Variables (X : Type) (model_forward : X -> list (list Q)).
Variables (softmax : list Q -> list Q) (sigmoid entr : Q -> Q).
Variable CalSet : Type.
(** The [MutualInformation] and [VariationRatio] metrics with
    [reduction="none"] (torch_uncertainty.metrics, contract-only). *)
Variables (mutual_information variation_ratio : tensor -> res tensor).

Record Ensemble := {
  base : Single CalSet;
  num_estimators : nat;
  use_mi : bool;
  use_variation_ratio : bool
}.

(** [ClassificationEnsemble.__init__]: [super().__init__] (which receives
    [mixtype], [mixmode], [dist_sim], the kernel temperatures and
    [calibration_set] through [**kwargs]), then the four-way criterion
    check (lines 479-485). *)
Definition init_ensemble (num_classes : nat) (num_estimators : nat)
    (mixtype mixmode dist_sim : string)
    (kernel_tau_max kernel_tau_std mixup_alpha cutmix_alpha : Q)
    (ood_detection use_entropy use_logits use_mi use_variation_ratio : bool)
    (calibration_set : option CalSet) : res Ensemble :=
  base <- init_single CalSet num_classes mixtype mixmode dist_sim
            kernel_tau_max kernel_tau_std mixup_alpha cutmix_alpha
            ood_detection use_entropy use_logits calibration_set ;;
  if Z.ltb 1 (Z.b2z base.(Routine.use_logits) + Z.b2z base.(Routine.use_entropy)
              + Z.b2z use_mi + Z.b2z use_variation_ratio)
  then Err ValueError
  else Ok {| base := base; num_estimators := num_estimators; use_mi := use_mi;
             use_variation_ratio := use_variation_ratio |}.

(** [probs_per_est.transpose(0, 1)]. *)
Definition transpose01 (t : tensor) : tensor :=
  match t with
  | T3 x => T3 (transpose x)
  | T2 m => T2 (transpose m)
  | _ => t
  end.

(** [ClassificationEnsemble.validation_step], up to the metric update:
    the rearrangement ["(m b) c -> b m c"] and the averaged probabilities. *)
Definition validation_probs (self : Ensemble) (inputs : X) : res tensor :=
  logits <- rearrange_nbc self.(num_estimators) (model_forward inputs) ;;
  let probs_per_est :=
    if self.(base).(binary_cls)
    then squeeze_last (T3 (map (map (map sigmoid)) logits))
    else T3 (map (map softmax) logits) in
  reduce_dim mean_f 1 probs_per_est.

(** [ClassificationEnsemble.test_step], lines 571-594: everything it
    computes before the first metric update, returning
    [(probs_per_est, probs, ood_values)]. *)
Definition test_step_scores (self : Ensemble) (inputs : X)
    : res (tensor * tensor * tensor) :=
  logits <- rearrange_nbc self.(num_estimators) (model_forward inputs) ;;
  let probs_per_est :=
    if self.(base).(binary_cls) then T3 (map (map (map sigmoid)) logits)
    else T3 (map (map softmax) logits) in
  probs <- reduce_dim mean_f 1 probs_per_est ;;
  confs <- reduce_dim max_f (-1) probs ;;
  ood_values <-
    (if self.(base).(use_logits) then
       m <- reduce_dim mean_f 1 (T3 logits) ;;
       mx <- reduce_dim max_f (-1) m ;; Ok (tmap Qopp mx)
     else if self.(base).(use_entropy) then
       s <- reduce_dim sum_f (-1) (tmap entr probs) ;; reduce_dim mean_f 1 s
     else if self.(use_mi) then mutual_information probs_per_est
     else if self.(use_variation_ratio) then
       variation_ratio (transpose01 probs_per_est)
     else Ok (tmap Qopp confs)) ;;
  Ok (probs_per_est, probs, ood_values).

End Ensemble.

Arguments base {CalSet} _.
Arguments num_estimators {CalSet} _.
Arguments use_mi {CalSet} _.
Arguments use_variation_ratio {CalSet} _.

End Ensemble.

(* ------------------------------------------------------------------ *)
(** ** [TinyImageNetDataModule] (datamodules/tiny_imagenet.py) *)

Module TinyImageNetDM.

(** The dataset classes it instantiates. *)
Inductive dataset_class := TinyImageNet | ImageNetO | SVHN | DTD.

(** The two pipelines built by the constructor: the training one, whose
    third step is the RandAugment policy when [rand_augment_opt] is given
    (the identity otherwise), and the test one. *)
Inductive transform :=
| TransformTrain (rand_augment_opt : option string)
| TransformTest.

(** A dataset instance: its class, [split], the [download] argument
    ([None] when not passed) and [transform]; or a [ConcatDataset]. *)
#[warnings="-register-all"]
Inductive dataset :=
| Dataset (cls : dataset_class) (split : string) (download : option bool)
    (tf : transform)
| ConcatDataset (datasets : list dataset).

(** [self._data_loader(d)] (AbstractDataModule, not under src/): a loader
    over [d]. *)
Inductive loader := DataLoader (d : dataset).

(** The attributes, [None] while unassigned. *)
Record TinyImageNetDataModule := {
  ood_detection : bool;
  ood_ds : string;
  dataset_cls : dataset_class;
  ood_dataset : option dataset_class;
  transform_train : transform;
  transform_test : transform;
  train : option dataset;
  val : option dataset;
  test : option dataset;
  ood : option dataset
}.

(** [TinyImageNetDataModule.__init__] (lines 23-78): [ood_ds] selects the
    OOD class among three names, and no other branch assigns it. *)
Definition init (ood_detection : bool) (ood_ds : string)
    (rand_augment_opt : option string) : TinyImageNetDataModule :=
  let ood_dataset :=
    if (ood_ds =? "imagenet-o")%string then Some ImageNetO
    else if (ood_ds =? "svhn")%string then Some SVHN
    else if (ood_ds =? "textures")%string then Some DTD
    else None in
  {| ood_detection := ood_detection; ood_ds := ood_ds;
     dataset_cls := TinyImageNet; ood_dataset := ood_dataset;
     transform_train := TransformTrain rand_augment_opt;
     transform_test := TransformTest;
     train := None; val := None; test := None; ood := None |}.

Definition set_fit (self : TinyImageNetDataModule) : TinyImageNetDataModule :=
  {| ood_detection := self.(ood_detection); ood_ds := self.(ood_ds);
     dataset_cls := self.(dataset_cls); ood_dataset := self.(ood_dataset);
     transform_train := self.(transform_train);
     transform_test := self.(transform_test);
     train := Some (Dataset self.(dataset_cls) "train" None
                      self.(transform_train));
     val := Some (Dataset self.(dataset_cls) "val" None self.(transform_test));
     test := self.(test); ood := self.(ood) |}.

Definition set_test (self : TinyImageNetDataModule) : TinyImageNetDataModule :=
  {| ood_detection := self.(ood_detection); ood_ds := self.(ood_ds);
     dataset_cls := self.(dataset_cls); ood_dataset := self.(ood_dataset);
     transform_train := self.(transform_train);
     transform_test := self.(transform_test);
     train := self.(train); val := self.(val);
     test := Some (Dataset self.(dataset_cls) "val" None self.(transform_test));
     ood := self.(ood) |}.

Definition set_ood (d : dataset) (self : TinyImageNetDataModule)
    : TinyImageNetDataModule :=
  {| ood_detection := self.(ood_detection); ood_ds := self.(ood_ds);
     dataset_cls := self.(dataset_cls); ood_dataset := self.(ood_dataset);
     transform_train := self.(transform_train);
     transform_test := self.(transform_test);
     train := self.(train); val := self.(val); test := self.(test);
     ood := Some d |}.

(** [TinyImageNetDataModule.setup] (lines 120-168). On an exception the
    attributes assigned before it stay assigned in Python; the model
    returns only the exception. *)
Definition setup (self : TinyImageNetDataModule) (stage : option string)
    : res TinyImageNetDataModule :=
  let self :=
    match stage with
    | None => set_fit self
    | Some s => if (s =? "fit")%string then set_fit self else self
    end in
  let self :=
    match stage with
    | Some s => if (s =? "test")%string then set_test self else self
    | None => self
    end in
  if self.(ood_detection) then
    if (self.(ood_ds) =? "textures")%string then
      c1 <- Routine.get_attr self.(ood_dataset) ;;
      c2 <- Routine.get_attr self.(ood_dataset) ;;
      c3 <- Routine.get_attr self.(ood_dataset) ;;
      Ok (set_ood (ConcatDataset
                     [Dataset c1 "train" (Some true) self.(transform_test);
                      Dataset c2 "val" (Some true) self.(transform_test);
                      Dataset c3 "test" (Some true) self.(transform_test)])
            self)
    else
      c <- Routine.get_attr self.(ood_dataset) ;;
      Ok (set_ood (Dataset c "test" None self.(transform_test)) self)
  else Ok self.

(** [TinyImageNetDataModule.prepare_data] (lines 87-118): the datasets it
    instantiates (with [download=True]). *)
Definition prepare_data (self : TinyImageNetDataModule) : res (list dataset) :=
  if self.(ood_detection) then
    if negb (self.(ood_ds) =? "textures")%string then
      c <- Routine.get_attr self.(ood_dataset) ;;
      Ok [Dataset c "test" (Some true) self.(transform_test)]
    else
      c1 <- Routine.get_attr self.(ood_dataset) ;;
      c2 <- Routine.get_attr self.(ood_dataset) ;;
      c3 <- Routine.get_attr self.(ood_dataset) ;;
      Ok [ConcatDataset
            [Dataset c1 "train" (Some true) self.(transform_test);
             Dataset c2 "val" (Some true) self.(transform_test);
             Dataset c3 "test" (Some true) self.(transform_test)]]
  else Ok [].

(** [TinyImageNetDataModule.test_dataloader] (lines 170-180). *)
Definition test_dataloader (self : TinyImageNetDataModule)
    : res (list loader) :=
  t <- Routine.get_attr self.(test) ;;
  let dataloader := [DataLoader t] in
  if self.(ood_detection) then
    o <- Routine.get_attr self.(ood) ;; Ok (dataloader ++ [DataLoader o])
  else Ok dataloader.

End TinyImageNetDM.

(* ------------------------------------------------------------------ *)
(** ** Concrete configurations *)

(** A single-model routine for concrete checks: two classes, OOD
    detection on, default criterion, a calibration set. *)
Definition example_single : Routine.Single unit :=
  {| Routine.num_classes := 2; Routine.ood_detection := true;
     Routine.use_logits := false; Routine.use_entropy := false;
     Routine.calibration_set := Some tt; Routine.binary_cls := false;
     Routine.mixtype := "erm"; Routine.mixmode := "elem";
     Routine.dist_sim := "emb"; Routine.mixup := Some Routine.MixErm |}.

(** A network with two logits per sample, an identity "softmax" and a
    temperature of 2. *)
Definition example_forward (x : nat) : list (list Q) :=
  [[inject_Z (Z.of_nat x); 1]; [2; 0]].

(** An ensemble routine for concrete checks: two estimators, two classes,
    entropy as the OOD criterion. *)
Definition example_ensemble : Ensemble.Ensemble unit :=
  {| Ensemble.base :=
       {| Routine.num_classes := 2; Routine.ood_detection := true;
          Routine.use_logits := false; Routine.use_entropy := true;
          Routine.calibration_set := None; Routine.binary_cls := false;
          Routine.mixtype := "erm"; Routine.mixmode := "elem";
          Routine.dist_sim := "emb"; Routine.mixup := Some Routine.MixErm |};
     Ensemble.num_estimators := 2; Ensemble.use_mi := false;
     Ensemble.use_variation_ratio := false |}.

(** A single-model routine for one class (binary classification),
    default OOD criterion. *)
Definition example_binary : Routine.Single unit :=
  {| Routine.num_classes := 1; Routine.ood_detection := true;
     Routine.use_logits := false; Routine.use_entropy := false;
     Routine.calibration_set := None; Routine.binary_cls := true;
     Routine.mixtype := "erm"; Routine.mixmode := "elem";
     Routine.dist_sim := "emb"; Routine.mixup := Some Routine.MixErm |}.

(** Two rows of [NIGLoss] inputs whose targets equal the predicted
    [gamma] (written [2 # 2] and [3 # 1] for [1] and [3]). *)
Definition example_nig_inputs : list (list NIG.nig_point) :=
  [[{| NIG.gamma := 1; NIG.v := 1; NIG.alpha := 2; NIG.beta := 1;
       NIG.target := 2 # 2 |}];
   [{| NIG.gamma := 3; NIG.v := 1 # 2; NIG.alpha := 3; NIG.beta := 2;
       NIG.target := 3 # 1 |}]].

(* ================================================================== *)
(** * Properties *)

(* ------------------------------------------------------------------ *)
(** ** DECLoss *)

Lemma dec_init_inv (annealing_step : option Z) (reg_weight : option Q)
    (loss_type reduction : string) (d : DEC.DECLoss) :
  DEC.init annealing_step reg_weight loss_type reduction = Ok d ->
  d = {| DEC.annealing_step := annealing_step; DEC.reg_weight := reg_weight;
         DEC.loss_type := loss_type; DEC.reduction := reduction |} /\
  (forall a, annealing_step = Some a -> (0 < a)%Z) /\
  (forall w, reg_weight = Some w -> Qltb w 0 = false) /\
  existsb (String.eqb loss_type) ["mse"; "log"; "digamma"]%string = true.
Proof.
  unfold DEC.init.
  destruct (match reg_weight with Some w => Qltb w 0 | None => false end)
    eqn:Hw; [discriminate |].
  destruct (match annealing_step with Some a => Z.leb a 0 | None => false end)
    eqn:Ha; [discriminate |].
  destruct (negb (valid_reduction reduction)); [discriminate |].
  destruct (existsb _ _) eqn:Hl; [| discriminate].
  intros H; injection H as <-.
  repeat split.
  - intros a ->. apply Z.leb_gt. exact Ha.
  - intros w ->. exact Hw.
Qed.

(** [forward] applies [annealing_coef] to the KL-regularisation term: a
    successful call returns the reduction of [fit + coef * kl]. *)
Lemma dec_forward_coef log lgamma digamma (d : DEC.DECLoss) (evidence : tensor2)
    (targets : list nat) (current_epoch : option Z) (out : loss_out) :
  DEC.forward log lgamma digamma d evidence targets current_epoch = Ok out ->
  exists coef t loss_dirichlet,
    DEC.annealing_coef d current_epoch = Ok coef /\
    one_hot targets evidence.(cols) = Ok t /\
    out = reduce d.(DEC.reduction)
            (zipWith (fun x r => x + coef * r) loss_dirichlet
               (zipWith (DEC.kldiv_reg lgamma digamma evidence.(cols))
                  evidence.(rows) t)).
Proof.
  unfold DEC.forward.
  destruct (match DEC.annealing_step d with
            | Some a => Ok (Z.ltb 0 a && is_none current_epoch)
            | None => Ok false end) as [[|] | e]; simpl;
    try discriminate.
  destruct (one_hot targets (cols evidence)) as [t | e]; simpl; try discriminate.
  match goal with
  | |- bind ?m _ = _ -> _ => destruct m as [ld | e]; simpl; try discriminate
  end.
  destruct (DEC.annealing_coef d current_epoch) as [coef | e]; simpl;
    try discriminate.
  intros H; injection H as <-.
  exists coef, t, ld. auto.
Qed.

(** C3: the annealing coefficient that [DECLoss.forward] applies to the
    KL-regularisation term is 0 when neither [reg_weight] nor
    [annealing_step] is given; [min(1, current_epoch/annealing_step)] when
    only [annealing_step] is given and [current_epoch > 0]; the constant
    [reg_weight] when only a positive [reg_weight] is given; and
    [min(1, current_epoch/annealing_step)], ignoring [reg_weight], when
    both are given. *)
Theorem dec_annealing_coef_cases (annealing_step : option Z)
    (reg_weight : option Q) (loss_type reduction : string) (d : DEC.DECLoss)
    (Hinit : DEC.init annealing_step reg_weight loss_type reduction = Ok d) :
  (forall log lgamma digamma evidence targets current_epoch out,
     DEC.forward log lgamma digamma d evidence targets current_epoch = Ok out ->
     exists coef t loss_dirichlet,
       DEC.annealing_coef d current_epoch = Ok coef /\
       one_hot targets evidence.(cols) = Ok t /\
       out = reduce d.(DEC.reduction)
               (zipWith (fun x r => x + coef * r) loss_dirichlet
                  (zipWith (DEC.kldiv_reg lgamma digamma evidence.(cols))
                     evidence.(rows) t))) /\
  (annealing_step = None -> reg_weight = None ->
   forall current_epoch, DEC.annealing_coef d current_epoch = Ok 0) /\
  (forall a c, annealing_step = Some a -> reg_weight = None -> (0 < c)%Z ->
   DEC.annealing_coef d (Some c) = Ok (Qmin 1 (inject_Z c / inject_Z a))) /\
  (forall w, annealing_step = None -> reg_weight = Some w -> 0 < w ->
   forall current_epoch, DEC.annealing_coef d current_epoch = Ok w) /\
  (forall a w c, annealing_step = Some a -> reg_weight = Some w ->
   DEC.annealing_coef d (Some c) = Ok (Qmin 1 (inject_Z c / inject_Z a))).
Proof.
  destruct (dec_init_inv _ _ _ _ _ Hinit) as [-> [Ha [Hw _]]].
  split; [intros; eapply dec_forward_coef; eassumption |].
  unfold DEC.annealing_coef; simpl.
  split; [intros -> -> ce; reflexivity |].
  split.
  { intros a c -> -> Hc. specialize (Ha a eq_refl). simpl.
    rewrite (proj2 (Z.ltb_lt 0 a) Ha), (proj2 (Z.ltb_lt 0 c) Hc). simpl.
    rewrite (proj2 (Z.eqb_neq a 0)) by lia. reflexivity. }
  split.
  { intros w -> -> Hpos ce. simpl. unfold Qltb.
    destruct (Qle_bool w 0) eqn:E; [|reflexivity].
    apply Qle_bool_iff in E. exfalso. apply (Qle_not_lt _ _ E Hpos). }
  { intros a w c -> ->. specialize (Ha a eq_refl). simpl.
    rewrite (proj2 (Z.eqb_neq a 0)) by lia. reflexivity. }
Qed.

Lemma dec_annealing_coef_cases_witness :
  DEC.init (Some 10%Z) None "log" "mean" =
    Ok {| DEC.annealing_step := Some 10%Z; DEC.reg_weight := None;
          DEC.loss_type := "log"; DEC.reduction := "mean" |} /\
  DEC.annealing_coef
    {| DEC.annealing_step := Some 10%Z; DEC.reg_weight := None;
       DEC.loss_type := "log"; DEC.reduction := "mean" |} (Some 3%Z)
  = Ok (Qmin 1 (inject_Z 3 / inject_Z 10)).
Proof.
  split; [reflexivity |].
  destruct (dec_annealing_coef_cases (Some 10%Z) None "log" "mean" _ eq_refl)
    as [_ [_ [H _]]].
  apply H; [reflexivity | reflexivity | lia].
Defined.

(** C10: [DECLoss(reg_weight=0)] without [annealing_step] is accepted by
    the constructor, yet every [forward] call on well-formed targets
    raises [TypeError], with or without [current_epoch]: the coefficient
    selection falls through to the branch computing
    [current_epoch / self.annealing_step] with [annealing_step = None]. *)
Theorem dec_zero_reg_weight_forward_raises (loss_type reduction : string)
    (Hlt : existsb (String.eqb loss_type) ["mse"; "log"; "digamma"]%string = true)
    (Hred : valid_reduction reduction = true) :
  (exists d, DEC.init None (Some 0) loss_type reduction = Ok d) /\
  (forall d, DEC.init None (Some 0) loss_type reduction = Ok d ->
   forall log lgamma digamma evidence targets current_epoch,
   forallb (fun t => Nat.ltb t evidence.(cols)) targets = true ->
   DEC.forward log lgamma digamma d evidence targets current_epoch
   = Err TypeError).
Proof.
  split.
  { unfold DEC.init. rewrite Hred, Hlt. simpl. eexists; reflexivity. }
  intros d Hinit log lgamma digamma evidence targets current_epoch Ht.
  destruct (dec_init_inv _ _ _ _ _ Hinit) as [-> [_ [_ Hl]]].
  unfold DEC.forward. simpl.
  unfold one_hot. rewrite Ht. simpl.
  assert (Hcoef : DEC.annealing_coef
            {| DEC.annealing_step := None; DEC.reg_weight := Some 0;
               DEC.loss_type := loss_type; DEC.reduction := reduction |}
            current_epoch = Err TypeError).
  { unfold DEC.annealing_coef. simpl.
    destruct current_epoch; reflexivity. }
  simpl in Hl.
  destruct (loss_type =? "mse")%string; simpl; [rewrite Hcoef; reflexivity |].
  destruct (loss_type =? "log")%string; simpl; [rewrite Hcoef; reflexivity |].
  destruct (loss_type =? "digamma")%string; simpl;
    [rewrite Hcoef; reflexivity | discriminate].
Qed.

Lemma dec_zero_reg_weight_forward_raises_witness :
  existsb (String.eqb "log") ["mse"; "log"; "digamma"]%string = true /\
  valid_reduction "mean" = true /\
  DEC.forward (fun q => q) (fun q => q) (fun q => q)
    {| DEC.annealing_step := None; DEC.reg_weight := Some 0;
       DEC.loss_type := "log"; DEC.reduction := "mean" |}
    {| cols := 3; rows := [[1; 0; 2]; [0; 5; 1]] |} [2%nat; 1%nat] (Some 4%Z)
  = Err TypeError.
Proof.
  split; [reflexivity |]. split; [reflexivity |].
  destruct (dec_zero_reg_weight_forward_raises "log" "mean" eq_refl eq_refl)
    as [_ H].
  apply H; reflexivity.
Defined.

(* ------------------------------------------------------------------ *)
(** ** ELBOLoss *)

Section ElboProps.

Variables (St X Y L : Type).
Variable model : St -> X -> L * St.
Variable bayesian_modules : St -> list (Q * Q).
Variable criterion : L -> Y -> Q.

Lemma elbo_loop_sum (self : ELBO.ELBOLoss) (inputs : X) (targets : Y) :
  forall n st agg,
  fst (ELBO.elbo_loop exact St X Y L model bayesian_modules criterion
         self inputs targets n st agg)
  == agg + sumQ (ELBO.draws exact St X Y L model bayesian_modules criterion
                   self inputs targets n st).
Proof.
  induction n as [| n IH]; intros st agg; simpl.
  - unfold sumQ; simpl; ring.
  - destruct (model st inputs) as [logits st'].
    rewrite IH. unfold sumQ, exact; simpl. ring.
Qed.

Lemma elbo_draws_length (self : ELBO.ELBOLoss) (inputs : X) (targets : Y) :
  forall n st,
  List.length (ELBO.draws exact St X Y L model bayesian_modules criterion
                 self inputs targets n st) = n.
Proof.
  induction n as [| n IH]; intros st; simpl; [reflexivity |].
  destruct (model st inputs) as [logits st']. simpl. f_equal. apply IH.
Qed.

(** Under a model whose output and KL term do not depend on the state,
    every draw equals the first one. *)
Lemma elbo_draws_constant (self : ELBO.ELBOLoss) (inputs : X) (targets : Y)
    (Hmodel : forall s s', fst (model s inputs) = fst (model s' inputs))
    (Hkl : forall s s',
       ELBO.kl_div exact (bayesian_modules (snd (model s inputs)))
       == ELBO.kl_div exact (bayesian_modules (snd (model s' inputs))))
    (s0 : St) :
  forall n st,
  sumQ (ELBO.draws exact St X Y L model bayesian_modules criterion
          self inputs targets n st)
  == inject_Z (Z.of_nat n)
     * (criterion (fst (model s0 inputs)) targets
        + self.(ELBO.kl_weight)
          * ELBO.kl_div exact (bayesian_modules (snd (model s0 inputs)))).
Proof.
  induction n as [| n IH]; intros st; simpl.
  - unfold sumQ; simpl; ring.
  - pose proof (Hmodel st s0) as Hm. pose proof (Hkl st s0) as Hk.
    destruct (model st inputs) as [logits st']. simpl in Hm, Hk |- *.
    unfold sumQ in *; simpl. rewrite IH, Hm, Hk. unfold exact at 1.
    change (Z.pos (Pos.of_succ_nat n)) with (Z.of_nat (S n)).
    rewrite Nat2Z.inj_succ, <- Z.add_1_r, inject_Z_plus. ring.
Qed.

Lemma elbo_init_inv (criterion_is_class : bool) (kl_weight : Q)
    (num_samples : Z) (self : ELBO.ELBOLoss) :
  ELBO.init criterion_is_class kl_weight num_samples = Ok self ->
  self = {| ELBO.kl_weight := kl_weight;
            ELBO.num_samples := Z.to_nat num_samples |} /\
  (1 <= num_samples)%Z.
Proof.
  unfold ELBO.init.
  destruct criterion_is_class; [discriminate |].
  destruct (Qltb kl_weight 0); [discriminate |].
  destruct (Z.ltb num_samples 1) eqn:E; [discriminate |].
  intros H; injection H as <-. split; [reflexivity |].
  apply Z.ltb_ge in E. exact E.
Qed.

End ElboProps.

Lemma elbo_forward_fst (St X Y L : Type) model bayesian_modules criterion
    (self : ELBO.ELBOLoss) (st : St) (inputs : X) (targets : Y) :
  fst (ELBO.forward exact St X Y L model bayesian_modules criterion
         self st inputs targets)
  == (0 + sumQ (ELBO.draws exact St X Y L model bayesian_modules criterion
                  self inputs targets self.(ELBO.num_samples) st))
     / inject_Z (Z.of_nat self.(ELBO.num_samples)).
Proof.
  unfold ELBO.forward.
  pose proof (elbo_loop_sum St X Y L model bayesian_modules criterion self
                inputs targets self.(ELBO.num_samples) st 0) as H.
  destruct (ELBO.elbo_loop _ _ _ _ _ _ _ _ _ _ _ _ _ _) as [agg st'].
  simpl in H |- *. unfold exact. rewrite H. reflexivity.
Qed.

(** C6 (corrected): in exact arithmetic, [ELBOLoss.forward] returns the
    mean over [num_samples] draws of
    [criterion(model(inputs), targets) + kl_weight * kl_divergence()];
    for a model and a KL term that do not depend on the random state,
    the loss with any [num_samples = k >= 1] then equals the single-sample
    loss. In float32 this holds only up to rounding (counterexample
    below). *)
Theorem elbo_forward_mean_of_draws (St X Y L : Type)
    (model : St -> X -> L * St) (bayesian_modules : St -> list (Q * Q))
    (criterion : L -> Y -> Q) (criterion_is_class : bool) (kl_weight : Q)
    (num_samples : Z) (self : ELBO.ELBOLoss)
    (Hinit : ELBO.init criterion_is_class kl_weight num_samples = Ok self)
    (st : St) (inputs : X) (targets : Y) :
  fst (ELBO.forward exact St X Y L model bayesian_modules criterion
         self st inputs targets)
  == meanQ (ELBO.draws exact St X Y L model bayesian_modules criterion
              self inputs targets self.(ELBO.num_samples) st) /\
  List.length (ELBO.draws exact St X Y L model bayesian_modules criterion
                 self inputs targets self.(ELBO.num_samples) st)
  = Z.to_nat num_samples /\
  ((forall s s', fst (model s inputs) = fst (model s' inputs)) ->
   (forall s s',
      ELBO.kl_div exact (bayesian_modules (snd (model s inputs)))
      == ELBO.kl_div exact (bayesian_modules (snd (model s' inputs)))) ->
   forall self1, ELBO.init criterion_is_class kl_weight 1 = Ok self1 ->
   fst (ELBO.forward exact St X Y L model bayesian_modules criterion
          self st inputs targets)
   == fst (ELBO.forward exact St X Y L model bayesian_modules criterion
             self1 st inputs targets)).
Proof.
  destruct (elbo_init_inv _ _ _ _ Hinit) as [Hself Hk].
  split; [| split].
  - rewrite elbo_forward_fst. unfold meanQ.
    rewrite elbo_draws_length, Qplus_0_l. reflexivity.
  - rewrite elbo_draws_length, Hself. reflexivity.
  - intros Hmodel Hkl self1 Hinit1.
    destruct (elbo_init_inv _ _ _ _ Hinit1) as [Hself1 _].
    rewrite !elbo_forward_fst, !Qplus_0_l.
    rewrite !(elbo_draws_constant St X Y L model bayesian_modules criterion
                _ inputs targets Hmodel Hkl st).
    subst self self1. simpl.
    rewrite Z2Nat.id by lia.
    assert (Hn : ~ inject_Z num_samples == 0).
    { intros E. apply (inject_Z_injective num_samples 0) in E. lia. }
    field; exact Hn.
Qed.

Lemma elbo_forward_mean_of_draws_witness :
  ELBO.init false (1 # 2) 3 =
    Ok {| ELBO.kl_weight := 1 # 2; ELBO.num_samples := 3 |} /\
  fst (ELBO.forward exact nat Q Q Q (fun s x => (x, S s)) (fun _ => [(3, 1)])
         (fun l y => l - y) {| ELBO.kl_weight := 1 # 2; ELBO.num_samples := 3 |}
         0%nat 5 2)
  == fst (ELBO.forward exact nat Q Q Q (fun s x => (x, S s))
            (fun _ => [(3, 1)]) (fun l y => l - y)
            {| ELBO.kl_weight := 1 # 2; ELBO.num_samples := 1 |} 0%nat 5 2).
Proof.
  split; [reflexivity |].
  destruct (elbo_forward_mean_of_draws nat Q Q Q (fun s x => (x, S s))
              (fun _ => [(3, 1)]) (fun l y => l - y) false (1 # 2) 3
              {| ELBO.kl_weight := 1 # 2; ELBO.num_samples := 3 |} eq_refl
              0%nat 5 2) as [_ [_ H]].
  apply H; [intros; reflexivity | intros; reflexivity | reflexivity].
Defined.

(** C6, counterexample: with float32 tensors, a deterministic model
    without Bayesian modules, a criterion whose value is [float32(0.1)]
    and [kl_weight = 0], [num_samples = 10] gives
    [6710887 / 2^26 = 0.10000000894...] while [num_samples = 1] gives
    [13421773 / 2^27 = 0.10000000149...]: the loss is not the same for
    every [num_samples]. *)
Lemma elbo_forward_float32_depends_on_num_samples :
  ELBO.init false 0 10 =
    Ok {| ELBO.kl_weight := 0; ELBO.num_samples := 10 |} /\
  ELBO.init false 0 1 =
    Ok {| ELBO.kl_weight := 0; ELBO.num_samples := 1 |} /\
  fst (ELBO.forward f32_round unit unit unit unit (fun s x => (x, s))
         (fun _ => []) (fun _ _ => f32_round (1 # 10))
         {| ELBO.kl_weight := 0; ELBO.num_samples := 10 |} tt tt tt)
  == 6710887 # 67108864 /\
  fst (ELBO.forward f32_round unit unit unit unit (fun s x => (x, s))
         (fun _ => []) (fun _ _ => f32_round (1 # 10))
         {| ELBO.kl_weight := 0; ELBO.num_samples := 1 |} tt tt tt)
  == 13421773 # 134217728 /\
  ~ fst (ELBO.forward f32_round unit unit unit unit (fun s x => (x, s))
           (fun _ => []) (fun _ _ => f32_round (1 # 10))
           {| ELBO.kl_weight := 0; ELBO.num_samples := 10 |} tt tt tt)
    == fst (ELBO.forward f32_round unit unit unit unit (fun s x => (x, s))
              (fun _ => []) (fun _ _ => f32_round (1 # 10))
              {| ELBO.kl_weight := 0; ELBO.num_samples := 1 |} tt tt tt).
Proof.
  split; [reflexivity |]. split; [reflexivity |].
  split; [vm_compute; reflexivity |]. split; [vm_compute; reflexivity |].
  vm_compute. discriminate.
Qed.

(* ------------------------------------------------------------------ *)
(** ** NIGLoss *)

Lemma nig_init_inv (reg_weight : Q) (reduction : string) (self : NIG.NIGLoss) :
  NIG.init reg_weight reduction = Ok self ->
  self = {| NIG.reg_weight := reg_weight; NIG.reduction := reduction |}.
Proof.
  unfold NIG.init.
  destruct (Qltb reg_weight 0); [discriminate |].
  destruct (negb (valid_reduction reduction)); [discriminate |].
  intros H; injection H as <-. reflexivity.
Qed.

(** C7: for the same [reg_weight] and inputs, [NIGLoss] with
    [reduction="sum"] returns the sum, and with [reduction="mean"] the
    mean, of the element-wise tensor it returns with [reduction="none"]. *)
Theorem nig_reductions_agree (log lgamma : Q -> Q) (pi reg_weight : Q)
    (l_none l_sum l_mean : NIG.NIGLoss)
    (Hnone : NIG.init reg_weight "none" = Ok l_none)
    (Hsum : NIG.init reg_weight "sum" = Ok l_sum)
    (Hmean : NIG.init reg_weight "mean" = Ok l_mean)
    (inputs : list (list NIG.nig_point)) :
  exists loss,
    NIG.forward log lgamma pi l_none inputs = NIG.NTensor loss /\
    NIG.forward log lgamma pi l_sum inputs = NIG.NScalar (sumQ (List.concat loss)) /\
    NIG.forward log lgamma pi l_mean inputs = NIG.NScalar (meanQ (List.concat loss)).
Proof.
  apply nig_init_inv in Hnone, Hsum, Hmean. subst.
  eexists. split; [reflexivity | split; reflexivity].
Qed.

Lemma nig_reductions_agree_witness :
  NIG.init (1 # 10) "none" = Ok {| NIG.reg_weight := 1 # 10; NIG.reduction := "none" |} /\
  NIG.init (1 # 10) "sum" = Ok {| NIG.reg_weight := 1 # 10; NIG.reduction := "sum" |} /\
  NIG.init (1 # 10) "mean" = Ok {| NIG.reg_weight := 1 # 10; NIG.reduction := "mean" |} /\
  exists loss,
    NIG.forward (fun q => q) (fun q => q) 3
      {| NIG.reg_weight := 1 # 10; NIG.reduction := "none" |}
      [[{| NIG.gamma := 1; NIG.v := 2; NIG.alpha := 3; NIG.beta := 1; NIG.target := 0 |}]]
    = NIG.NTensor loss /\
    NIG.forward (fun q => q) (fun q => q) 3
      {| NIG.reg_weight := 1 # 10; NIG.reduction := "sum" |}
      [[{| NIG.gamma := 1; NIG.v := 2; NIG.alpha := 3; NIG.beta := 1; NIG.target := 0 |}]]
    = NIG.NScalar (sumQ (List.concat loss)) /\
    NIG.forward (fun q => q) (fun q => q) 3
      {| NIG.reg_weight := 1 # 10; NIG.reduction := "mean" |}
      [[{| NIG.gamma := 1; NIG.v := 2; NIG.alpha := 3; NIG.beta := 1; NIG.target := 0 |}]]
    = NIG.NScalar (meanQ (List.concat loss)).
Proof.
  split; [reflexivity |]. split; [reflexivity |]. split; [reflexivity |].
  exact (nig_reductions_agree (fun q => q) (fun q => q) 3 (1 # 10) _ _ _
           eq_refl eq_refl eq_refl _).
Defined.

(* ------------------------------------------------------------------ *)
(** ** Construction of the routines *)

Section Construction.

Variable CalSet : Type.

Lemma init_single_err num_classes mixtype mixmode dist_sim kernel_tau_max
    kernel_tau_std mixup_alpha cutmix_alpha ood_detection use_entropy use_logits
    (calibration_set : option CalSet) e :
  Routine.init_single CalSet num_classes mixtype mixmode dist_sim kernel_tau_max
    kernel_tau_std mixup_alpha cutmix_alpha ood_detection use_entropy use_logits
    calibration_set = Err e -> e = ValueError.
Proof.
  unfold Routine.init_single.
  destruct (Z.ltb 1 _); [congruence |].
  destruct (Qltb mixup_alpha 0 || Qltb cutmix_alpha 0); congruence.
Qed.

Lemma init_single_inv num_classes mixtype mixmode dist_sim kernel_tau_max
    kernel_tau_std mixup_alpha cutmix_alpha ood_detection use_entropy use_logits
    (calibration_set : option CalSet) s :
  Routine.init_single CalSet num_classes mixtype mixmode dist_sim kernel_tau_max
    kernel_tau_std mixup_alpha cutmix_alpha ood_detection use_entropy use_logits
    calibration_set = Ok s ->
  Routine.use_logits s = use_logits /\ Routine.use_entropy s = use_entropy /\
  Routine.mixtype s = mixtype /\ Routine.dist_sim s = dist_sim /\
  Routine.calibration_set s = calibration_set /\
  Routine.ood_detection s = ood_detection.
Proof.
  unfold Routine.init_single.
  destruct (Z.ltb 1 _); [congruence |].
  destruct (Qltb mixup_alpha 0 || Qltb cutmix_alpha 0); [congruence |].
  intros H; injection H as <-. repeat split.
Qed.

Lemma Qltb_nonneg (q : Q) : 0 <= q -> Qltb q 0 = false.
Proof.
  intros Hq. unfold Qltb. apply negb_false_iff, Qle_bool_iff. exact Hq.
Qed.

End Construction.

(** C2: the single-model routine raises [ValueError] when [use_logits]
    and [use_entropy] are both set, the ensemble routine when two or more
    of [use_logits], [use_entropy], [use_mi], [use_variation_ratio] are
    set; with at most one of them set, construction succeeds (given
    non-negative mixup and cutmix alphas, the one other check). *)
Theorem ood_criterion_construction_check (CalSet : Type) :
  (forall num_classes mixtype mixmode dist_sim kernel_tau_max kernel_tau_std
          mixup_alpha cutmix_alpha ood_detection (calibration_set : option CalSet),
   Routine.init_single CalSet num_classes mixtype mixmode dist_sim kernel_tau_max
     kernel_tau_std mixup_alpha cutmix_alpha ood_detection true true
     calibration_set = Err ValueError) /\
  (forall num_classes mixtype mixmode dist_sim kernel_tau_max kernel_tau_std
          mixup_alpha cutmix_alpha ood_detection use_entropy use_logits
          (calibration_set : option CalSet),
   (Z.b2z use_logits + Z.b2z use_entropy <= 1)%Z ->
   0 <= mixup_alpha -> 0 <= cutmix_alpha ->
   exists s,
   Routine.init_single CalSet num_classes mixtype mixmode dist_sim kernel_tau_max
     kernel_tau_std mixup_alpha cutmix_alpha ood_detection use_entropy use_logits
     calibration_set = Ok s) /\
  (forall num_classes num_estimators mixtype mixmode dist_sim kernel_tau_max
          kernel_tau_std mixup_alpha cutmix_alpha ood_detection use_entropy
          use_logits use_mi use_variation_ratio (calibration_set : option CalSet),
   (1 < Z.b2z use_logits + Z.b2z use_entropy + Z.b2z use_mi
        + Z.b2z use_variation_ratio)%Z ->
   Ensemble.init_ensemble CalSet num_classes num_estimators mixtype mixmode
     dist_sim kernel_tau_max kernel_tau_std mixup_alpha cutmix_alpha
     ood_detection use_entropy use_logits use_mi use_variation_ratio
     calibration_set = Err ValueError) /\
  (forall num_classes num_estimators mixtype mixmode dist_sim kernel_tau_max
          kernel_tau_std mixup_alpha cutmix_alpha ood_detection use_entropy
          use_logits use_mi use_variation_ratio (calibration_set : option CalSet),
   (Z.b2z use_logits + Z.b2z use_entropy + Z.b2z use_mi
    + Z.b2z use_variation_ratio <= 1)%Z ->
   0 <= mixup_alpha -> 0 <= cutmix_alpha ->
   exists e,
   Ensemble.init_ensemble CalSet num_classes num_estimators mixtype mixmode
     dist_sim kernel_tau_max kernel_tau_std mixup_alpha cutmix_alpha
     ood_detection use_entropy use_logits use_mi use_variation_ratio
     calibration_set = Ok e).
Proof.
  split; [| split; [| split]].
  - intros. reflexivity.
  - intros num_classes mixtype mixmode dist_sim kernel_tau_max kernel_tau_std
      mixup_alpha cutmix_alpha ood_detection use_entropy use_logits
      calibration_set Hle Hm Hc.
    unfold Routine.init_single.
    rewrite (proj2 (Z.ltb_ge 1 _) Hle), !Qltb_nonneg by assumption.
    simpl. eexists; reflexivity.
  - intros num_classes num_estimators mixtype mixmode dist_sim kernel_tau_max
      kernel_tau_std mixup_alpha cutmix_alpha ood_detection use_entropy
      use_logits use_mi use_variation_ratio calibration_set Hgt.
    unfold Ensemble.init_ensemble.
    destruct (Routine.init_single _ _ _ _ _ _ _ _ _ _ _ _ _) as [b | e] eqn:Hb;
      simpl.
    + destruct (init_single_inv _ _ _ _ _ _ _ _ _ _ _ _ _ _ Hb)
        as [Hl [He _]].
      rewrite Hl, He, (proj2 (Z.ltb_lt 1 _) Hgt). reflexivity.
    + rewrite (init_single_err _ _ _ _ _ _ _ _ _ _ _ _ _ _ Hb). reflexivity.
  - intros num_classes num_estimators mixtype mixmode dist_sim kernel_tau_max
      kernel_tau_std mixup_alpha cutmix_alpha ood_detection use_entropy
      use_logits use_mi use_variation_ratio calibration_set Hle Hm Hc.
    unfold Ensemble.init_ensemble, Routine.init_single.
    assert (Hle2 : (Z.b2z use_logits + Z.b2z use_entropy <= 1)%Z).
    { destruct use_mi, use_variation_ratio; simpl in Hle; lia. }
    rewrite (proj2 (Z.ltb_ge 1 _) Hle2), !Qltb_nonneg by assumption.
    simpl. rewrite (proj2 (Z.ltb_ge 1 _) Hle). eexists; reflexivity.
Qed.

Lemma ood_criterion_construction_check_witness :
  Routine.init_single unit 10 "erm" "elem" "emb" 1 (1 # 2) 0 0 true true true
    None = Err ValueError /\
  (exists s, Routine.init_single unit 10 "erm" "elem" "emb" 1 (1 # 2) 0 0 true
               false true None = Ok s) /\
  Ensemble.init_ensemble unit 10 4 "erm" "elem" "emb" 1 (1 # 2) 0 0 true false
    false true true None = Err ValueError /\
  (exists e, Ensemble.init_ensemble unit 10 4 "erm" "elem" "emb" 1 (1 # 2) 0 0
               true false false true false None = Ok e).
Proof.
  destruct (ood_criterion_construction_check unit) as [H1 [H2 [H3 H4]]].
  split; [apply H1 |]. split; [apply H2; simpl; lia || apply Qle_refl |].
  split; [apply H3; simpl; lia |].
  apply H4; simpl; lia || apply Qle_refl.
Defined.

(** C8 (fails): a mixing-policy name outside the six supported kinds is
    accepted by [ClassificationSingle.__init__], which then leaves
    [self.mixup] unassigned; the error surfaces only at the first
    [training_step], as [AttributeError] on [self.mixup]. *)
Theorem unknown_mixtype_fails_at_training_step (X : Type)
    (feats_forward : X -> X) (CalSet TrainBatch : Type)
    (batch_inputs : TrainBatch -> X)
    (apply_mix : Routine.mix_policy -> TrainBatch -> option X -> TrainBatch)
    (train_loss : TrainBatch -> Q)
    num_classes mixtype mixmode dist_sim kernel_tau_max kernel_tau_std
    mixup_alpha cutmix_alpha ood_detection use_entropy use_logits
    (calibration_set : option CalSet)
    (Hname : ~ In mixtype ["erm"; "timm"; "mixup"; "mixup_io"; "regmixup";
                           "kernel_warping"]%string)
    (Hcrit : (Z.b2z use_logits + Z.b2z use_entropy <= 1)%Z)
    (Hm : 0 <= mixup_alpha) (Hc : 0 <= cutmix_alpha) :
  exists s,
    Routine.init_single CalSet num_classes mixtype mixmode dist_sim
      kernel_tau_max kernel_tau_std mixup_alpha cutmix_alpha ood_detection
      use_entropy use_logits calibration_set = Ok s /\
    Routine.mixup s = None /\
    forall batch,
      Routine.training_step X feats_forward CalSet TrainBatch batch_inputs
        apply_mix train_loss s batch = Err AttributeError.
Proof.
  assert (Hne : forall n, In n ["erm"; "timm"; "mixup"; "mixup_io"; "regmixup";
                                "kernel_warping"]%string ->
                          (mixtype =? n)%string = false).
  { intros n Hin. apply String.eqb_neq. intros ->. exact (Hname Hin). }
  unfold Routine.init_single.
  rewrite (proj2 (Z.ltb_ge 1 _) Hcrit), !Qltb_nonneg by assumption. simpl.
  rewrite !Hne by (simpl; tauto).
  eexists; split; [reflexivity | split; [reflexivity |]].
  intros batch. unfold Routine.training_step. simpl.
  rewrite Hne by (simpl; tauto). reflexivity.
Qed.

Lemma unknown_mixtype_fails_at_training_step_witness :
  ~ In "cutmix"%string ["erm"; "timm"; "mixup"; "mixup_io"; "regmixup";
                       "kernel_warping"]%string /\
  exists s,
    Routine.init_single unit 10 "cutmix" "elem" "emb" 1 (1 # 2) 0 0 false
      false false None = Ok s /\
    Routine.mixup s = None /\
    forall batch : nat,
      Routine.training_step nat (fun x => x) unit nat (fun b => b)
        (fun _ b _ => b) (fun b => inject_Z (Z.of_nat b)) s batch
      = Err AttributeError.
Proof.
  assert (Hn : ~ In "cutmix"%string ["erm"; "timm"; "mixup"; "mixup_io";
                                     "regmixup"; "kernel_warping"]%string).
  { simpl. intros H. repeat destruct H as [H | H]; try discriminate H. exact H. }
  split; [exact Hn |].
  apply (unknown_mixtype_fails_at_training_step nat (fun x => x) unit nat
           (fun b => b) (fun _ b _ => b) (fun b => inject_Z (Z.of_nat b))
           10 "cutmix" "elem" "emb" 1 (1 # 2) 0 0 false false false None Hn);
    [simpl; lia | apply Qle_refl | apply Qle_refl].
Defined.

(* ------------------------------------------------------------------ *)
(** ** The test step of the single-model routine *)

(** C1 (as amended): after [on_test_start], a batch at dataloader index 0
    updates the ID classification pool and the ID entropy and, with OOD
    detection, the OOD pool with label 0; at index 1 with OOD detection
    it updates the OOD pool with label 1 and the OOD entropy; at any
    other index (index 1 without OOD detection, or beyond 1) it updates
    none of these pools. At every index the batch also goes to the
    calibrated pool when a calibration set is configured. *)
Theorem single_test_step_routing (X : Type)
    (model_forward : X -> list (list Q)) (softmax : list Q -> list Q)
    (sigmoid entr : Q -> Q) (CalSet : Type) (learn_temperature : CalSet -> Q)
    (self : Routine.Single CalSet) (st0 : Routine.test_state) (inputs : X)
    (targets : list nat) (probs ood_values : Tensor.tensor)
    (Hscores : Routine.test_scores X model_forward softmax sigmoid entr CalSet
                 self inputs = Ok (probs, ood_values)) :
  let st := Routine.on_test_start CalSet learn_temperature self st0 in
  let stc :=
    match Routine.calibration_set self with
    | Some cs =>
        Routine.update_ts
          (Tensor.T2 (map softmax
                        (Routine.temperature_scale (learn_temperature cs)
                           (model_forward inputs))), targets) st
    | None => st
    end in
  let step := Routine.test_step X model_forward softmax sigmoid entr CalSet
                self st inputs targets in
  step 0%nat =
    Ok (if Routine.ood_detection self
        then Routine.update_ood (ood_values, Routine.zeros_like targets)
               (Routine.update_id (probs, targets) probs stc)
        else Routine.update_id (probs, targets) probs stc) /\
  (Routine.ood_detection self = true ->
   step 1%nat =
     Ok (Routine.update_entropy_ood probs
           (Routine.update_ood (ood_values, Routine.ones_like targets) stc))) /\
  (Routine.ood_detection self = false -> step 1%nat = Ok stc) /\
  (forall idx, (1 < idx)%nat -> step idx = Ok stc).
Proof.
  intros st stc step.
  assert (Hstep : forall idx, step idx =
    (if Nat.eqb idx 0 then
       let s := Routine.update_id (probs, targets) probs stc in
       if Routine.ood_detection self
       then Ok (Routine.update_ood (ood_values, Routine.zeros_like targets) s)
       else Ok s
     else if Routine.ood_detection self && Nat.eqb idx 1 then
       Ok (Routine.update_entropy_ood probs
             (Routine.update_ood (ood_values, Routine.ones_like targets) stc))
     else Ok stc)).
  { intros idx. unfold step, Routine.test_step. rewrite Hscores. simpl.
    unfold stc, st, Routine.on_test_start.
    destruct (Routine.calibration_set self); reflexivity. }
  split; [| split; [| split]].
  - rewrite Hstep. simpl. destruct (Routine.ood_detection self); reflexivity.
  - intros Hood. rewrite Hstep, Hood. reflexivity.
  - intros Hood. rewrite Hstep, Hood. reflexivity.
  - intros idx Hidx. rewrite Hstep.
    rewrite (proj2 (Nat.eqb_neq idx 0)) by lia.
    rewrite (proj2 (Nat.eqb_neq idx 1)) by lia.
    rewrite andb_false_r. reflexivity.
Qed.

Lemma single_test_step_routing_witness :
  Routine.test_scores nat example_forward (fun r => r) (fun q => q)
    (fun q => q) unit example_single 3%nat
  = Ok (Tensor.T2 [[3; 1]; [2; 0]], Tensor.T1 [-3; -2]) /\
  Routine.test_step nat example_forward (fun r => r) (fun q => q) (fun q => q)
    unit example_single
    (Routine.on_test_start unit (fun _ => 2) example_single
       Routine.empty_test_state) 3%nat [0%nat; 1%nat] 2%nat
  = Ok (Routine.update_ts
          (Tensor.T2 (map (fun r => r)
                        (Routine.temperature_scale 2 (example_forward 3%nat))),
           [0%nat; 1%nat])
          (Routine.on_test_start unit (fun _ => 2) example_single
             Routine.empty_test_state)).
Proof.
  split; [reflexivity |].
  destruct (single_test_step_routing nat example_forward (fun r => r)
              (fun q => q) (fun q => q) unit (fun _ => 2) example_single
              Routine.empty_test_state 3%nat [0%nat; 1%nat]
              (Tensor.T2 [[3; 1]; [2; 0]]) (Tensor.T1 [-3; -2]) eq_refl)
    as [_ [_ [_ H]]].
  apply H. lia.
Defined.

(** C1 (as stated, fails): with a calibration set configured, a batch at
    dataloader index 2 is not a no-op: it is added to the calibrated
    metric pool. *)
Lemma single_test_step_index2_updates_calibrated_pool :
  Routine.init_single unit 2 "erm" "elem" "emb" 1 (1 # 2) 0 0 true false false
    (Some tt) = Ok example_single /\
  exists st',
    Routine.test_step nat example_forward (fun r => r) (fun q => q)
      (fun q => q) unit example_single
      (Routine.on_test_start unit (fun _ => 2) example_single
         Routine.empty_test_state) 3%nat [0%nat; 1%nat] 2%nat = Ok st' /\
    Routine.ts_cls_metrics st'
    <> Routine.ts_cls_metrics
         (Routine.on_test_start unit (fun _ => 2) example_single
            Routine.empty_test_state).
Proof.
  split; [reflexivity |].
  eexists. split; [reflexivity |]. simpl. discriminate.
Qed.

(** C9: once [on_test_start] has fitted the scaler for a configured
    calibration set, every test batch, whatever its dataloader index
    (0, 1 or beyond), is forwarded through the calibrated model and its
    calibrated probabilities are added to the calibrated metric pool. *)
Theorem calibrated_pool_updated_at_every_index (X : Type)
    (model_forward : X -> list (list Q)) (softmax : list Q -> list Q)
    (sigmoid entr : Q -> Q) (CalSet : Type) (learn_temperature : CalSet -> Q)
    (self : Routine.Single CalSet) (cs : CalSet)
    (Hcal : Routine.calibration_set self = Some cs)
    (st0 : Routine.test_state) (inputs : X) (targets : list nat)
    (probs ood_values : Tensor.tensor)
    (Hscores : Routine.test_scores X model_forward softmax sigmoid entr CalSet
                 self inputs = Ok (probs, ood_values)) :
  forall dataloader_idx, exists st',
    Routine.test_step X model_forward softmax sigmoid entr CalSet self
      (Routine.on_test_start CalSet learn_temperature self st0)
      inputs targets dataloader_idx = Ok st' /\
    Routine.ts_cls_metrics st' =
      Routine.ts_cls_metrics st0 ++
        [(Tensor.T2 (map softmax
                       (Routine.temperature_scale (learn_temperature cs)
                          (model_forward inputs))), targets)].
Proof.
  intros idx.
  unfold Routine.test_step. rewrite Hscores. simpl.
  unfold Routine.on_test_start. rewrite Hcal. simpl.
  destruct (Nat.eqb idx 0);
    [| destruct (Routine.ood_detection self && Nat.eqb idx 1)];
    [destruct (Routine.ood_detection self) | |];
    eexists; split; reflexivity.
Qed.

Lemma calibrated_pool_updated_at_every_index_witness :
  Routine.calibration_set example_single = Some tt /\
  Routine.test_scores nat example_forward (fun r => r) (fun q => q)
    (fun q => q) unit example_single 3%nat
  = Ok (Tensor.T2 [[3; 1]; [2; 0]], Tensor.T1 [-3; -2]) /\
  exists st',
    Routine.test_step nat example_forward (fun r => r) (fun q => q)
      (fun q => q) unit example_single
      (Routine.on_test_start unit (fun _ => 2) example_single
         Routine.empty_test_state) 3%nat [0%nat; 1%nat] 5%nat = Ok st' /\
    Routine.ts_cls_metrics st' =
      Routine.ts_cls_metrics Routine.empty_test_state ++
        [(Tensor.T2 (map (fun r => r)
                       (Routine.temperature_scale 2 (example_forward 3%nat))),
          [0%nat; 1%nat])].
Proof.
  split; [reflexivity |]. split; [reflexivity |].
  exact (calibrated_pool_updated_at_every_index nat example_forward
           (fun r => r) (fun q => q) (fun q => q) unit (fun _ => 2)
           example_single tt eq_refl Routine.empty_test_state 3%nat
           [0%nat; 1%nat] (Tensor.T2 [[3; 1]; [2; 0]]) (Tensor.T1 [-3; -2])
           eq_refl 5%nat).
Defined.

(* ------------------------------------------------------------------ *)
(** ** The ensemble reshaping *)

Section Reshape.

Local Open Scope nat_scope.
Variable A : Type.

Lemma nth_error_zipWith {B C} (f : A -> B -> C) :
  forall l1 l2 i,
  nth_error (zipWith f l1 l2) i =
  match nth_error l1 i, nth_error l2 i with
  | Some a, Some b => Some (f a b)
  | _, _ => None
  end.
Proof.
  induction l1 as [| x l1 IH]; intros [| y l2] [| i]; simpl; auto.
  destruct (nth_error l1 i); reflexivity.
Qed.

Lemma length_zipWith {B C} (f : A -> B -> C) :
  forall l1 l2, List.length (zipWith f l1 l2) = Nat.min (List.length l1) (List.length l2).
Proof.
  induction l1 as [| x l1 IH]; intros [| y l2]; simpl; auto.
Qed.

(** [transpose] of non-empty rows of a common length [b]. *)
Lemma transpose_spec (d : A) (b : nat) :
  forall m, m <> [] -> Forall (fun r => List.length r = b) m ->
  List.length (Tensor.transpose m) = b /\
  forall i, i < b ->
  nth_error (Tensor.transpose m) i = Some (map (fun r => nth i r d) m).
Proof.
  induction m as [| r m IH]; intros Hne Hall; [congruence |].
  inversion Hall as [| ? ? Hr Hall']; subst.
  destruct m as [| r' m'].
  - simpl. rewrite length_map. split; [reflexivity |].
    intros i Hi. rewrite nth_error_map, (nth_error_nth' _ d Hi). reflexivity.
  - destruct (IH ltac:(discriminate) Hall') as [Hlen Hnth].
    change (Tensor.transpose (r :: r' :: m'))
      with (zipWith cons r (Tensor.transpose (r' :: m'))).
    split.
    + rewrite length_zipWith, Hlen. lia.
    + intros i Hi.
      rewrite nth_error_zipWith, (nth_error_nth' r (n := i) d) by lia.
      rewrite (Hnth i Hi). reflexivity.
Qed.

(** [chunks n b l] of a list of length [n * b]. *)
Lemma chunks_spec (n b : nat) :
  forall l : list A, List.length l = n * b ->
  List.length (Tensor.chunks n b l) = n /\
  Forall (fun c => List.length c = b) (Tensor.chunks n b l) /\
  forall e, e < n ->
  nth_error (Tensor.chunks n b l) e = Some (firstn b (skipn (e * b) l)).
Proof.
  induction n as [| n IH]; intros l Hl; simpl.
  - split; [reflexivity | split; [constructor | intros; lia]].
  - assert (Hl' : List.length (skipn b l) = n * b) by (rewrite length_skipn; lia).
    destruct (IH _ Hl') as [Hlen [Hall Hnth]].
    split; [rewrite Hlen; reflexivity |].
    split.
    + constructor; [rewrite length_firstn; lia | exact Hall].
    + intros [| e] He; simpl; [reflexivity |].
      rewrite Hnth by lia. rewrite skipn_skipn.
      replace (e * b + b) with (b + e * b) by lia. reflexivity.
Qed.

End Reshape.

(** C4: for [num_estimators = n] and a stacked output of [n * b] rows,
    [rearrange(logits, "(n b) c -> b n c")] (used by both the validation
    and the test step of the ensemble routine) has shape [[b, n, _]] and
    its element [[i, e, c]] is the element [c] of row [e * b + i] of the
    stacked output: the estimator index varies slowest. *)
Theorem rearrange_nbc_layout (n b : nat) (logits : list (list Q))
    (Hn : (0 < n)%nat) (Hlen : List.length logits = (n * b)%nat) :
  exists t,
    Tensor.rearrange_nbc n logits = Ok t /\
    List.length t = b /\
    Forall (fun m => List.length m = n) t /\
    forall i e c, (i < b)%nat -> (e < n)%nat ->
      match nth_error t i with
      | Some m => match nth_error m e with
                  | Some r => nth_error r c
                  | None => None
                  end
      | None => None
      end =
      match nth_error logits (e * b + i) with
      | Some r => nth_error r c
      | None => None
      end.
Proof.
  unfold Tensor.rearrange_nbc.
  rewrite Hlen, (Nat.mul_comm n b), Nat.Div0.mod_mul, Nat.div_mul by lia.
  destruct (n =? 0) eqn:E; [apply Nat.eqb_eq in E; lia |]. simpl.
  destruct (chunks_spec (list Q) n b logits Hlen) as [Hcl [Hcall Hcnth]].
  assert (Hne : Tensor.chunks n b logits <> []).
  { intros E'. rewrite E' in Hcl. simpl in Hcl. lia. }
  destruct (transpose_spec (list Q) [] b _ Hne Hcall) as [Htl Htnth].
  eexists. split; [reflexivity |]. split; [exact Htl |]. split.
  - apply Forall_forall. intros m Hin.
    destruct (In_nth_error _ _ Hin) as [i Hi].
    assert (Hib : (i < b)%nat).
    { rewrite <- Htl. apply nth_error_Some. congruence. }
    rewrite Htnth in Hi by exact Hib. injection Hi as <-.
    rewrite length_map. exact Hcl.
  - intros i e c Hi He.
    rewrite (Htnth i Hi), nth_error_map, (Hcnth e He). simpl.
    set (row := firstn b (skipn (e * b) logits)).
    assert (H1 : nth_error row i = nth_error logits (e * b + i)).
    { unfold row. rewrite nth_error_firstn, (proj2 (Nat.ltb_lt i b) Hi).
      apply nth_error_skipn. }
    assert (Hrow : List.length row = b).
    { rewrite Forall_forall in Hcall. apply Hcall.
      apply nth_error_In with e. apply Hcnth. exact He. }
    rewrite (nth_error_nth' row (n := i) []) in H1 by lia.
    rewrite <- H1. reflexivity.
Qed.

Lemma rearrange_nbc_layout_witness :
  exists t,
    Tensor.rearrange_nbc 3
      (map (fun r => map (fun c => inject_Z (Z.of_nat (10 * r + c))) (seq 0 5))
         (seq 0 12)) = Ok t /\
    List.length t = 4%nat /\
    Forall (fun m => List.length m = 3%nat) t /\
    forall i e c, (i < 4)%nat -> (e < 3)%nat ->
      match nth_error t i with
      | Some m => match nth_error m e with
                  | Some r => nth_error r c
                  | None => None
                  end
      | None => None
      end =
      match nth_error
              (map (fun r => map (fun c => inject_Z (Z.of_nat (10 * r + c)))
                               (seq 0 5)) (seq 0 12)) (e * 4 + i) with
      | Some r => nth_error r c
      | None => None
      end.
Proof.
  apply rearrange_nbc_layout; [lia | reflexivity].
Defined.

(* ------------------------------------------------------------------ *)
(** ** The entropy score of the ensemble routine *)

Lemma mapM_ok {A B} (f : A -> res B) (g : A -> B)
    (Hf : forall x, f x = Ok (g x)) :
  forall l, Tensor.mapM f l = Ok (map g l).
Proof.
  induction l as [| x l IH]; simpl; [reflexivity |].
  rewrite Hf. simpl. rewrite IH. reflexivity.
Qed.

Lemma mean_dim1_T3 (t : list (list (list Q))) :
  Tensor.reduce_dim Tensor.mean_f 1 (Tensor.T3 t)
  = Ok (Tensor.T2 (map (fun x => map meanQ (Tensor.transpose x)) t)).
Proof.
  unfold Tensor.reduce_dim. simpl.
  rewrite (mapM_ok _ (fun x => map meanQ (Tensor.transpose x))).
  - reflexivity.
  - intros x. apply mapM_ok. intros l. reflexivity.
Qed.

Lemma sum_last_T2 (m : list (list Q)) :
  Tensor.reduce_dim Tensor.sum_f (-1) (Tensor.T2 m)
  = Ok (Tensor.T1 (map sumQ m)).
Proof.
  unfold Tensor.reduce_dim. simpl.
  rewrite (mapM_ok _ sumQ) by (intros; reflexivity). reflexivity.
Qed.

(** Reducing dimension 1 of a one-dimensional tensor is out of range. *)
Lemma mean_dim1_T1 (l : list Q) :
  Tensor.reduce_dim Tensor.mean_f 1 (Tensor.T1 l) = Err IndexError.
Proof. reflexivity. Qed.

(** C5 (fails): with [use_entropy] selected, the ensemble test step never
    yields OOD scores: [entr(probs).sum(dim=-1)] is already one score per
    sample, a one-dimensional tensor, and the trailing [.mean(dim=1)]
    raises [IndexError] (when an earlier step has not raised already). *)
Theorem ensemble_entropy_score_never_computed (X : Type)
    (model_forward : X -> list (list Q)) (softmax : list Q -> list Q)
    (sigmoid entr : Q -> Q) (CalSet : Type)
    (mutual_information variation_ratio : Tensor.tensor -> res Tensor.tensor)
    (self : Ensemble.Ensemble CalSet)
    (Hl : Routine.use_logits (Ensemble.base self) = false)
    (He : Routine.use_entropy (Ensemble.base self) = true)
    (inputs : X) :
  (forall scores,
     Ensemble.test_step_scores X model_forward softmax sigmoid entr CalSet
       mutual_information variation_ratio self inputs <> Ok scores) /\
  (forall logits probs,
     Tensor.rearrange_nbc (Ensemble.num_estimators self) (model_forward inputs)
       = Ok logits ->
     Tensor.reduce_dim Tensor.mean_f 1
       (if Routine.binary_cls (Ensemble.base self)
        then Tensor.T3 (map (map (map sigmoid)) logits)
        else Tensor.T3 (map (map softmax) logits)) = Ok probs ->
     (exists confs, Tensor.reduce_dim Tensor.max_f (-1) probs = Ok confs) ->
     Ensemble.test_step_scores X model_forward softmax sigmoid entr CalSet
       mutual_information variation_ratio self inputs = Err IndexError).
Proof.
  split.
  - intros scores. unfold Ensemble.test_step_scores.
    destruct (Tensor.rearrange_nbc _ _) as [logits | e]; [| discriminate].
    cbn [bind].
    destruct (Routine.binary_cls _); rewrite mean_dim1_T3; cbn [bind];
      (destruct (Tensor.reduce_dim Tensor.max_f _ _); cbn [bind];
       [| discriminate]);
      rewrite Hl, He; simpl Tensor.tmap; rewrite sum_last_T2; cbn [bind];
      rewrite mean_dim1_T1; discriminate.
  - intros logits probs Hr Hp [confs Hc]. unfold Ensemble.test_step_scores.
    rewrite Hr. cbn [bind].
    destruct (Routine.binary_cls _); rewrite mean_dim1_T3 in Hp;
      injection Hp as <-; rewrite mean_dim1_T3; cbn [bind]; rewrite Hc;
      cbn [bind]; rewrite Hl, He; simpl Tensor.tmap; rewrite sum_last_T2;
      cbn [bind]; rewrite mean_dim1_T1; reflexivity.
Qed.

Lemma ensemble_entropy_score_never_computed_witness :
  Routine.use_logits (Ensemble.base example_ensemble) = false /\
  Routine.use_entropy (Ensemble.base example_ensemble) = true /\
  Ensemble.test_step_scores nat
    (fun _ => [[1; 0]; [0; 1]; [1 # 2; 1 # 2]; [1; 0]])
    (fun r => r) (fun q => q) (fun q => q) unit (fun t => Ok t) (fun t => Ok t)
    example_ensemble 0%nat = Err IndexError.
Proof.
  split; [reflexivity |]. split; [reflexivity |].
  destruct (ensemble_entropy_score_never_computed nat
              (fun _ => [[1; 0]; [0; 1]; [1 # 2; 1 # 2]; [1; 0]])
              (fun r => r) (fun q => q) (fun q => q) unit
              (fun t => Ok t) (fun t => Ok t) example_ensemble
              eq_refl eq_refl 0%nat) as [_ H].
  eapply H; [reflexivity | reflexivity | eexists; reflexivity].
Defined.

(* ================================================================== *)
(** * Further properties of the code *)

(* ------------------------------------------------------------------ *)
(** ** Boolean tests of the constructors *)

Lemma Qltb_false_iff (a b : Q) : Qltb a b = false <-> b <= a.
Proof.
  unfold Qltb. rewrite negb_false_iff. apply Qle_bool_iff.
Qed.

Lemma valid_reduction_In (r : string) :
  valid_reduction r = true <-> In r ["none"; "mean"; "sum"]%string.
Proof.
  unfold valid_reduction. simpl.
  rewrite !orb_true_iff, !String.eqb_eq. intuition congruence.
Qed.

Lemma existsb_eqb_In (s : string) (l : list string) :
  existsb (String.eqb s) l = true <-> In s l.
Proof.
  rewrite existsb_exists. split.
  - intros [x [Hx Hs]]. apply String.eqb_eq in Hs. subst. exact Hx.
  - intros Hs. exists s. split; [exact Hs | apply String.eqb_refl].
Qed.

(* ------------------------------------------------------------------ *)
(** ** Sums of non-negative terms *)

Lemma sumQ_nonneg (l : list Q) : Forall (Qle 0) l -> 0 <= sumQ l.
Proof.
  induction 1 as [| x l Hx _ IH]; unfold sumQ in *; simpl; lra.
Qed.

Lemma sumQ_ge_In (l : list Q) (x : Q) :
  Forall (Qle 0) l -> In x l -> x <= sumQ l.
Proof.
  induction 1 as [| y l Hy Hl IH]; [intros [] |].
  intros [-> | Hin]; unfold sumQ in *; simpl.
  - pose proof (sumQ_nonneg l Hl). unfold sumQ in *. lra.
  - specialize (IH Hin). lra.
Qed.

Lemma Forall_zipWith_nonneg {A B} (f : A -> B -> Q)
    (Hf : forall x y, 0 <= f x y) :
  forall l1 l2, Forall (Qle 0) (zipWith f l1 l2).
Proof.
  induction l1 as [| x l1 IH]; intros [| y l2]; simpl; constructor; auto.
Qed.

Lemma relu_nonneg (x : Q) : 0 <= relu x.
Proof. unfold relu. apply Q.le_max_l. Qed.

Lemma alpha_ge_1 (evidence : list Q) :
  Forall (fun a => 1 <= a) (map (fun e => relu e + 1) evidence).
Proof.
  apply Forall_map, Forall_forall. intros e _.
  pose proof (relu_nonneg e). lra.
Qed.

Lemma alpha_nonneg (evidence : list Q) :
  Forall (Qle 0) (map (fun e => relu e + 1) evidence).
Proof.
  eapply Forall_impl; [| apply alpha_ge_1]. simpl. intros a Ha. lra.
Qed.

(** Selecting with a one-hot row [1[i = k]] for [i] in [[s, s + n)]. *)
Lemma sumQ_one_hot (g : Q -> Q) :
  forall (alpha : list Q) (s k : nat),
  sumQ (zipWith (fun t a => t * g a)
          (map (fun i => if Nat.eqb i k then 1 else 0)
             (seq s (List.length alpha))) alpha)
  == if Nat.leb s k && Nat.ltb k (s + List.length alpha)
     then g (nth (k - s) alpha 0) else 0.
Proof.
  induction alpha as [| a alpha IH]; intros s k.
  - simpl. destruct (Nat.leb_spec s k), (Nat.ltb_spec k (s + 0)); simpl;
      try reflexivity. lia.
  - cbn [List.length seq map zipWith]. unfold sumQ in *. cbn [fold_right].
    rewrite IH.
    destruct (Nat.eqb_spec s k) as [-> | Hne].
    + rewrite Nat.leb_refl, Nat.sub_diag.
      replace (Nat.leb (S k) k) with false by (symmetry; apply Nat.leb_gt; lia).
      replace (Nat.ltb k (k + S (List.length alpha))) with true
        by (symmetry; apply Nat.ltb_lt; lia).
      simpl. ring.
    + destruct (Nat.leb_spec (S s) k), (Nat.leb_spec s k),
        (Nat.ltb_spec k (S s + List.length alpha)),
        (Nat.ltb_spec k (s + S (List.length alpha))); simpl; try lia;
        try ring.
      replace (k - s)%nat with (S (k - S s)) by lia. simpl. ring.
Qed.

(* ------------------------------------------------------------------ *)
(** ** DECLoss: construction, errors and the per-sample losses *)

(** [DECLoss.__init__] accepts exactly a non-negative [reg_weight] (when
    given), a positive [annealing_step] (when given), a reduction among
    "none", "mean", "sum" and a [loss_type] among "mse", "log", "digamma",
    and stores its arguments unchanged; every rejection is a
    [ValueError]. *)
Theorem dec_init_accepts_iff (annealing_step : option Z)
    (reg_weight : option Q) (loss_type reduction : string) :
  (forall d,
     DEC.init annealing_step reg_weight loss_type reduction = Ok d <->
     d = {| DEC.annealing_step := annealing_step;
            DEC.reg_weight := reg_weight;
            DEC.loss_type := loss_type; DEC.reduction := reduction |} /\
     (forall w, reg_weight = Some w -> 0 <= w) /\
     (forall a, annealing_step = Some a -> (0 < a)%Z) /\
     In reduction ["none"; "mean"; "sum"]%string /\
     In loss_type ["mse"; "log"; "digamma"]%string) /\
  (forall e,
     DEC.init annealing_step reg_weight loss_type reduction = Err e ->
     e = ValueError).
Proof.
  split.
  - intros d. unfold DEC.init. split.
    + destruct (match reg_weight with Some w => Qltb w 0 | None => false end)
        eqn:Hw; [discriminate |].
      destruct (match annealing_step with
                | Some a => Z.leb a 0 | None => false end) eqn:Ha;
        [discriminate |].
      destruct (valid_reduction reduction) eqn:Hr; [| discriminate].
      destruct (existsb (String.eqb loss_type) _) eqn:Hl; [| discriminate].
      intros H; simpl in H; injection H as <-.
      split; [reflexivity |]. split; [| split; [| split]].
      * intros w ->. apply Qltb_false_iff. exact Hw.
      * intros a ->. apply Z.leb_gt. exact Ha.
      * apply valid_reduction_In. exact Hr.
      * apply existsb_eqb_In. exact Hl.
    + intros [-> [Hw [Ha [Hr Hl]]]].
      replace (match reg_weight with Some w => Qltb w 0 | None => false end)
        with false
        by (destruct reg_weight as [w |]; [| reflexivity];
            symmetry; apply Qltb_false_iff, Hw; reflexivity).
      replace (match annealing_step with
               | Some a => Z.leb a 0 | None => false end)
        with false
        by (destruct annealing_step as [a |]; [| reflexivity];
            symmetry; apply Z.leb_gt, Ha; reflexivity).
      apply valid_reduction_In in Hr. apply existsb_eqb_In in Hl.
      rewrite Hr, Hl. reflexivity.
  - intros e. unfold DEC.init.
    destruct (match reg_weight with Some w => Qltb w 0 | None => false end);
      [congruence |].
    destruct (match annealing_step with
              | Some a => Z.leb a 0 | None => false end); [congruence |].
    destruct (negb (valid_reduction reduction)); [congruence |].
    destruct (negb (existsb _ _)); congruence.
Qed.

Lemma dec_init_accepts_iff_witness :
  DEC.init (Some 10%Z) None "log" "sum" =
  Ok {| DEC.annealing_step := Some 10%Z; DEC.reg_weight := None;
        DEC.loss_type := "log"; DEC.reduction := "sum" |} /\
  DEC.init (Some 0%Z) None "log" "sum" = Err ValueError.
Proof.
  destruct (dec_init_accepts_iff (Some 10%Z) None "log" "sum") as [H _].
  split.
  - apply H. split; [reflexivity |]. split; [| split; [| split]].
    + intros w Hw. discriminate.
    + intros a Ha. injection Ha as <-. lia.
    + simpl. auto.
    + simpl. auto.
  - reflexivity.
Defined.

(** With a positive [annealing_step], [DECLoss.forward] called without
    [current_epoch] raises [ValueError] before looking at its inputs,
    whatever the loss type, the evidence and the targets. *)
Theorem dec_forward_missing_epoch_raises (log lgamma digamma : Q -> Q)
    (self : DEC.DECLoss) (a : Z)
    (Ha : self.(DEC.annealing_step) = Some a) (Hpos : (0 < a)%Z)
    (evidence : tensor2) (targets : list nat) :
  DEC.forward log lgamma digamma self evidence targets None = Err ValueError.
Proof.
  unfold DEC.forward. rewrite Ha.
  apply Z.ltb_lt in Hpos. rewrite Hpos. reflexivity.
Qed.

Lemma dec_forward_missing_epoch_raises_witness :
  {| DEC.annealing_step := Some 10%Z; DEC.reg_weight := None;
     DEC.loss_type := "mse"; DEC.reduction := "mean" |}.(DEC.annealing_step)
    = Some 10%Z /\ (0 < 10)%Z /\
  DEC.forward (fun q => q) (fun q => q) (fun q => q)
    {| DEC.annealing_step := Some 10%Z; DEC.reg_weight := None;
       DEC.loss_type := "mse"; DEC.reduction := "mean" |}
    {| cols := 2; rows := [[1; 0]] |} [0%nat] None = Err ValueError.
Proof.
  split; [reflexivity |]. split; [lia |].
  apply (dec_forward_missing_epoch_raises _ _ _ _ 10%Z); [reflexivity | lia].
Defined.



(** [_mse_loss] is non-negative for every evidence row and every target
    row (not only one-hot ones): its squared-error part is a sum of
    squares, and its variance part has [alpha_j <= S] for
    [S = sum_j alpha_j], the [alpha_j = relu(e_j) + 1] being positive. *)
Theorem dec_mse_loss_nonneg (evidence targets : list Q) :
  0 <= DEC.mse_loss evidence targets.
Proof.
  unfold DEC.mse_loss.
  set (alpha := map (fun e => relu e + 1) evidence).
  assert (Hal : Forall (Qle 0) alpha) by apply alpha_nonneg.
  assert (HS : 0 <= sumQ alpha) by (apply sumQ_nonneg; exact Hal).
  assert (H1 : 0 <= sumQ (zipWith (fun t a => (t - a / sumQ alpha) ^ 2)
                             targets alpha)).
  { apply sumQ_nonneg, Forall_zipWith_nonneg. intros x y.
    generalize (x - y / sumQ alpha); intros z. simpl. nra. }
  assert (H2 : 0 <= sumQ (map (fun a => a * (sumQ alpha - a)
                   / (sumQ alpha * sumQ alpha * (sumQ alpha + 1))) alpha)).
  { apply sumQ_nonneg, Forall_map, Forall_forall. intros a Ha.
    pose proof (sumQ_ge_In alpha a Hal Ha) as Hle.
    rewrite Forall_forall in Hal. pose proof (Hal a Ha) as Ha0.
    unfold Qdiv. apply Qmult_le_0_compat.
    - apply Qmult_le_0_compat; lra.
    - apply Qinv_le_0_compat.
      apply Qmult_le_0_compat; [apply Qmult_le_0_compat |]; lra. }
  lra.
Qed.

(** With the one-hot target row of class [k], [_log_loss] is
    [log S - log alpha_k] and [_digamma_loss] is
    [digamma S - digamma alpha_k], for [alpha = relu(evidence) + 1] and
    [S = sum alpha]: the other classes do not contribute. *)
Theorem dec_log_digamma_select_target (log digamma : Q -> Q)
    (evidence : list Q) (k : nat) (Hk : (k < List.length evidence)%nat) :
  let alpha := map (fun e => relu e + 1) evidence in
  DEC.log_loss log evidence (one_hot_row (List.length evidence) k)
  == log (sumQ alpha) - log (nth k alpha 0) /\
  DEC.digamma_loss digamma evidence (one_hot_row (List.length evidence) k)
  == digamma (sumQ alpha) - digamma (nth k alpha 0).
Proof.
  intros alpha.
  assert (Hlen : List.length alpha = List.length evidence)
    by apply length_map.
  unfold DEC.log_loss, DEC.digamma_loss, one_hot_row. fold alpha.
  rewrite <- Hlen.
  assert (Hb : Nat.leb 0 k && Nat.ltb k (0 + List.length alpha) = true).
  { rewrite Hlen. apply andb_true_iff. split; [reflexivity |].
    apply Nat.ltb_lt. lia. }
  split.
  - rewrite (sumQ_one_hot (fun a => log (sumQ alpha) - log a)), Hb.
    rewrite Nat.sub_0_r. reflexivity.
  - rewrite (sumQ_one_hot (fun a => digamma (sumQ alpha) - digamma a)), Hb.
    rewrite Nat.sub_0_r. reflexivity.
Qed.

Lemma dec_log_digamma_select_target_witness :
  (1 < List.length [2; 0; 5])%nat /\
  DEC.log_loss (fun q => q) [2; 0; 5] (one_hot_row 3 1)
  == (3 + 1 + 6) - 1.
Proof.
  split; [simpl; lia |].
  destruct (dec_log_digamma_select_target (fun q => q) (fun q => q)
              [2; 0; 5] 1 ltac:(simpl; lia)) as [H _].
  simpl in H. rewrite H. reflexivity.
Defined.

Section KLReg.

(** [torch.lgamma] and [torch.digamma] as functions of the value: equal
    rationals (in [Q], [==]) have equal images. *)
Variables (lgamma digamma : Q -> Q).
Hypothesis lgamma_proper : Proper (Qeq ==> Qeq) lgamma.

Lemma sumQ_Forall2 (l1 l2 : list Q) :
  Forall2 Qeq l1 l2 -> sumQ l1 == sumQ l2.
Proof.
  induction 1 as [| x y l1 l2 Hxy _ IH]; unfold sumQ in *; simpl;
    [reflexivity |].
  rewrite Hxy, IH. reflexivity.
Qed.

Lemma map_Forall2 (g : Q -> Q) (Hg : Proper (Qeq ==> Qeq) g)
    (l1 l2 : list Q) :
  Forall2 Qeq l1 l2 -> Forall2 Qeq (map g l1) (map g l2).
Proof.
  induction 1; simpl; constructor; auto.
Qed.

Lemma sumQ_zipWith_diff_zero (h : Q -> Q) (l1 l2 : list Q) :
  Forall2 Qeq l1 l2 -> sumQ (zipWith (fun k o => (k - o) * h k) l1 l2) == 0.
Proof.
  induction 1 as [| x y l1 l2 Hxy _ IH]; unfold sumQ in *; simpl;
    [reflexivity |].
  rewrite IH. setoid_replace (x - y) with 0 by (rewrite Hxy; ring). ring.
Qed.

(** The [kl_alpha] of [_kldiv_reg] is all ones when the evidence of every
    non-target class is non-positive. *)
Lemma kl_alpha_ones (k : nat) :
  forall (evidence : list Q) (s n : nat),
  List.length evidence = n ->
  (forall i, (i < n)%nat -> (s + i)%nat <> k -> nth i evidence 0 <= 0) ->
  Forall2 Qeq
    (zipWith (fun a t => (a - 1) * (1 - t) + 1)
       (map (fun e => relu e + 1) evidence)
       (map (fun i => if Nat.eqb i k then 1 else 0) (seq s n)))
    (repeat 1 n).
Proof.
  induction evidence as [| e evidence IH]; intros s n Hlen Hwrong;
    destruct n as [| n]; simpl in Hlen; try discriminate; simpl;
    [constructor |].
  constructor.
  - destruct (Nat.eqb_spec s k) as [-> | Hne]; [ring |].
    assert (He : e <= 0)
      by (apply (Hwrong 0%nat); [lia | rewrite Nat.add_0_r; exact Hne]).
    assert (Hr : relu e == 0) by (unfold relu; apply Q.max_l; exact He).
    rewrite Hr. ring.
  - apply IH; [lia |].
    intros i Hi Hne. apply (Hwrong (S i)); [lia | lia].
Qed.

(** [_kldiv_reg] is zero on a sample whose evidence is non-positive on
    every class but the target one: the regulariser only penalises
    evidence put on wrong classes. *)
Theorem dec_kldiv_reg_zero_without_wrong_evidence (n k : nat)
    (evidence : list Q) (Hlen : List.length evidence = n)
    (Hwrong : forall i, (i < n)%nat -> i <> k -> nth i evidence 0 <= 0) :
  DEC.kldiv_reg lgamma digamma n evidence (one_hot_row n k) == 0.
Proof.
  unfold DEC.kldiv_reg, one_hot_row.
  pose proof (kl_alpha_ones k evidence 0 n Hlen
                (fun i Hi Hne => Hwrong i Hi Hne)) as H.
  rewrite (sumQ_zipWith_diff_zero
             (fun k0 => digamma k0 - digamma (sumQ (zipWith
                 (fun a t => (a - 1) * (1 - t) + 1)
                 (map (fun e => relu e + 1) evidence)
                 (map (fun i => if Nat.eqb i k then 1 else 0) (seq 0 n)))))
             _ _ H).
  rewrite (sumQ_Forall2 _ _ (map_Forall2 lgamma lgamma_proper _ _ H)).
  rewrite (lgamma_proper _ _ (sumQ_Forall2 _ _ H)).
  ring.
Qed.

End KLReg.

Lemma dec_kldiv_reg_zero_without_wrong_evidence_witness :
  Proper (Qeq ==> Qeq) (fun q : Q => q * q) /\
  List.length [-1; 5; 0] = 3%nat /\
  DEC.kldiv_reg (fun q => q * q) (fun q => q) 3 [-1; 5; 0] (one_hot_row 3 1)
  == 0.
Proof.
  assert (Hp : Proper (Qeq ==> Qeq) (fun q : Q => q * q))
    by (intros x y Hxy; rewrite Hxy; reflexivity).
  split; [exact Hp |]. split; [reflexivity |].
  apply (dec_kldiv_reg_zero_without_wrong_evidence _ _ Hp 3 1);
    [reflexivity |].
  intros [| [| [| i]]] Hi Hne; simpl; try lia; unfold Qle; simpl; lia.
Defined.

(* ------------------------------------------------------------------ *)
(** ** NIGLoss and ELBOLoss: construction and the NIG regulariser *)

(** [NIGLoss.__init__] accepts exactly a non-negative [reg_weight] and a
    reduction among "none", "mean", "sum"; every rejection is a
    [ValueError]. *)
Theorem nig_init_accepts_iff (reg_weight : Q) (reduction : string) :
  (forall s,
     NIG.init reg_weight reduction = Ok s <->
     s = {| NIG.reg_weight := reg_weight; NIG.reduction := reduction |} /\
     0 <= reg_weight /\ In reduction ["none"; "mean"; "sum"]%string) /\
  (forall e, NIG.init reg_weight reduction = Err e -> e = ValueError).
Proof.
  unfold NIG.init. split.
  - intros s. split.
    + destruct (Qltb reg_weight 0) eqn:Hw; [discriminate |].
      destruct (valid_reduction reduction) eqn:Hr; [| discriminate].
      intros H; simpl in H; injection H as <-.
      split; [reflexivity |]. split.
      * apply Qltb_false_iff. exact Hw.
      * apply valid_reduction_In. exact Hr.
    + intros [-> [Hw Hr]].
      apply Qltb_false_iff in Hw. apply valid_reduction_In in Hr.
      rewrite Hw, Hr. reflexivity.
  - intros e. destruct (Qltb reg_weight 0); [congruence |].
    destruct (negb (valid_reduction reduction)); congruence.
Qed.

(** [ELBOLoss.__init__] accepts exactly a criterion given as an instance
    (not a class), a non-negative [kl_weight] and [num_samples >= 1];
    every rejection is a [ValueError]. *)
Theorem elbo_init_accepts_iff (criterion_is_class : bool) (kl_weight : Q)
    (num_samples : Z) :
  (forall s,
     ELBO.init criterion_is_class kl_weight num_samples = Ok s <->
     s = {| ELBO.kl_weight := kl_weight;
            ELBO.num_samples := Z.to_nat num_samples |} /\
     criterion_is_class = false /\ 0 <= kl_weight /\ (1 <= num_samples)%Z) /\
  (forall e,
     ELBO.init criterion_is_class kl_weight num_samples = Err e ->
     e = ValueError).
Proof.
  unfold ELBO.init. split.
  - intros s. split.
    + destruct criterion_is_class; [discriminate |].
      destruct (Qltb kl_weight 0) eqn:Hw; [discriminate |].
      destruct (Z.ltb num_samples 1) eqn:Hn; [discriminate |].
      intros H; injection H as <-.
      split; [reflexivity |]. split; [reflexivity |]. split.
      * apply Qltb_false_iff. exact Hw.
      * apply Z.ltb_ge. exact Hn.
    + intros [-> [-> [Hw Hn]]].
      apply Qltb_false_iff in Hw. apply Z.ltb_ge in Hn.
      rewrite Hw, Hn. reflexivity.
  - intros e. destruct criterion_is_class; [congruence |].
    destruct (Qltb kl_weight 0); [congruence |].
    destruct (Z.ltb num_samples 1); congruence.
Qed.

Lemma sumQ_zeros (l : list Q) : Forall (fun x => x == 0) l -> sumQ l == 0.
Proof.
  induction 1 as [| x l Hx _ IH]; unfold sumQ in *; simpl; [reflexivity |].
  rewrite Hx, IH. reflexivity.
Qed.

Lemma Forall2_concat {A} (R : A -> A -> Prop) (m1 m2 : list (list A)) :
  Forall2 (Forall2 R) m1 m2 -> Forall2 R (List.concat m1) (List.concat m2).
Proof.
  induction 1; simpl; [constructor |]. apply Forall2_app; assumption.
Qed.

Lemma meanQ_Forall2 (l1 l2 : list Q) :
  Forall2 Qeq l1 l2 -> meanQ l1 == meanQ l2.
Proof.
  intros H. unfold meanQ.
  rewrite (sumQ_Forall2 _ _ H), (Forall2_length H). reflexivity.
Qed.

Section NigExact.

Variables (log lgamma : Q -> Q) (pi : Q).

(** On a row where every target equals its [gamma], each element of the
    loss is its negative log-likelihood. *)
Lemma nig_row_exact (w : Q) (row : list NIG.nig_point)
    (Hex : Forall (fun p => p.(NIG.target) == p.(NIG.gamma)) row) :
  Forall2 Qeq
    (zipWith (fun nll reg => nll + w * reg)
       (map (NIG.nig_nll log lgamma pi) row) (NIG.nig_reg_row row))
    (map (NIG.nig_nll log lgamma pi) row).
Proof.
  unfold NIG.nig_reg_row.
  assert (Hn : sumQ (map (fun p => Qabs (p.(NIG.target) - p.(NIG.gamma))) row)
               == 0).
  { apply sumQ_zeros, Forall_map. eapply Forall_impl; [| exact Hex].
    intros p Hp. cbv beta. rewrite Hp.
    setoid_replace (p.(NIG.gamma) - p.(NIG.gamma)) with 0 by ring.
    reflexivity. }
  revert Hn.
  generalize (sumQ (map (fun p => Qabs (p.(NIG.target) - p.(NIG.gamma))) row)).
  intros norm Hn. clear Hex.
  induction row as [| p row IH]; simpl; constructor; [| exact IH].
  rewrite Hn. ring.
Qed.

(** When every target equals the predicted [gamma], the evidential
    regulariser of [NIGLoss] vanishes: for each reduction the loss is the
    one of the negative log-likelihood alone, whatever [reg_weight]. *)
Theorem nig_exact_targets_loss_is_nll (self : NIG.NIGLoss)
    (inputs : list (list NIG.nig_point))
    (Hex : Forall (Forall (fun p => p.(NIG.target) == p.(NIG.gamma))) inputs) :
  let nll := map (map (NIG.nig_nll log lgamma pi)) inputs in
  match NIG.forward log lgamma pi self inputs with
  | NIG.NScalar q =>
      if (self.(NIG.reduction) =? "mean")%string
      then q == meanQ (List.concat nll)
      else q == sumQ (List.concat nll)
  | NIG.NTensor t => Forall2 (Forall2 Qeq) t nll
  end.
Proof.
  intros nll.
  assert (H : Forall2 (Forall2 Qeq)
                (map (fun row => zipWith
                        (fun nll reg => nll + self.(NIG.reg_weight) * reg)
                        (map (NIG.nig_nll log lgamma pi) row)
                        (NIG.nig_reg_row row)) inputs) nll).
  { unfold nll. induction Hex as [| row inputs Hrow _ IH]; simpl;
      constructor; [apply nig_row_exact; exact Hrow | exact IH]. }
  unfold NIG.forward.
  destruct (self.(NIG.reduction) =? "mean")%string eqn:Hm.
  - apply meanQ_Forall2, Forall2_concat, H.
  - destruct (self.(NIG.reduction) =? "sum")%string.
    + apply sumQ_Forall2, Forall2_concat, H.
    + exact H.
Qed.

End NigExact.

Lemma nig_exact_targets_loss_is_nll_witness :
  Forall (Forall (fun p => p.(NIG.target) == p.(NIG.gamma)))
    example_nig_inputs /\
  (let nll := map (map (NIG.nig_nll (fun q => q) (fun q => q) 3))
                example_nig_inputs in
   match NIG.forward (fun q => q) (fun q => q) 3
           {| NIG.reg_weight := 5; NIG.reduction := "sum" |}
           example_nig_inputs with
   | NIG.NScalar q =>
       if ("sum" =? "mean")%string
       then q == meanQ (List.concat nll)
       else q == sumQ (List.concat nll)
   | NIG.NTensor t => Forall2 (Forall2 Qeq) t nll
   end).
Proof.
  assert (H : Forall (Forall (fun p => p.(NIG.target) == p.(NIG.gamma)))
                example_nig_inputs) by (repeat constructor).
  split; [exact H |].
  exact (nig_exact_targets_loss_is_nll (fun q => q) (fun q => q) 3
           {| NIG.reg_weight := 5; NIG.reduction := "sum" |}
           example_nig_inputs H).
Defined.

(* ------------------------------------------------------------------ *)
(** ** The single-model routine: the calibration attributes, the OOD
    scores, the kernel-warping training step *)

Lemma mapM_ok_In {A B} (f : A -> res B) (g : A -> B) (l : list A)
    (Hf : forall x, In x l -> f x = Ok (g x)) :
  Tensor.mapM f l = Ok (map g l).
Proof.
  induction l as [| x l IH]; simpl; [reflexivity |].
  rewrite (Hf x (or_introl eq_refl)). simpl.
  rewrite IH; [reflexivity |]. intros y Hy. apply Hf. right. exact Hy.
Qed.

(** With a calibration set, [test_step] reads [scaler], which only
    [on_test_start] assigns: without that hook, once the batch's scores
    are computed, [test_step] raises [AttributeError]. *)
Theorem single_calibration_needs_on_test_start (X : Type)
    (model_forward : X -> list (list Q)) (softmax : list Q -> list Q)
    (sigmoid entr : Q -> Q) (CalSet : Type) (self : Routine.Single CalSet)
    (cs : CalSet) (Hcs : Routine.calibration_set self = Some cs)
    (st : Routine.test_state) (Hsc : st.(Routine.scaler) = None) :
  forall inputs targets dataloader_idx scores,
  Routine.test_scores X model_forward softmax sigmoid entr CalSet self
    inputs = Ok scores ->
  Routine.test_step X model_forward softmax sigmoid entr CalSet self st
    inputs targets dataloader_idx = Err AttributeError.
Proof.
  intros inputs targets idx [probs ood_values] Hs.
  unfold Routine.test_step. rewrite Hs. cbn [bind].
  rewrite Hcs. cbn [bind]. rewrite Hsc. reflexivity.
Qed.

Lemma single_calibration_needs_on_test_start_witness :
  Routine.calibration_set example_single = Some tt /\
  Routine.scaler Routine.empty_test_state = None /\
  Routine.test_step nat example_forward (fun r => r) (fun q => q) (fun q => q)
    unit example_single Routine.empty_test_state 3%nat [0%nat; 1%nat] 0%nat
  = Err AttributeError.
Proof.
  split; [reflexivity |]. split; [reflexivity |].
  case_eq (Routine.test_scores nat example_forward (fun r => r) (fun q => q)
             (fun q => q) unit example_single 3%nat).
  - intros scores Hs.
    exact (single_calibration_needs_on_test_start nat example_forward
             (fun r => r) (fun q => q) (fun q => q) unit example_single tt
             eq_refl Routine.empty_test_state eq_refl 3%nat [0%nat; 1%nat]
             0%nat scores Hs).
  - intros e He. vm_compute in He. discriminate.
Defined.

(** For more than one class, [test_step] yields the softmax of each row
    and one OOD score per sample: minus its largest logit with
    [use_logits], the sum of [entr] of its probabilities with
    [use_entropy], minus its largest probability otherwise (every
    probability row non-empty, and every logit row with [use_logits]). *)
Theorem single_ood_scores_per_sample (X : Type)
    (model_forward : X -> list (list Q)) (softmax : list Q -> list Q)
    (sigmoid entr : Q -> Q) (CalSet : Type) (self : Routine.Single CalSet)
    (Hbin : Routine.binary_cls self = false) (inputs : X)
    (Hsm : forall r, In r (model_forward inputs) -> softmax r <> [])
    (Hlg : Routine.use_logits self = true ->
           forall r, In r (model_forward inputs) -> r <> []) :
  Routine.test_scores X model_forward softmax sigmoid entr CalSet self inputs
  = Ok (Tensor.T2 (map softmax (model_forward inputs)),
        Tensor.T1 (map (fun r =>
          if Routine.use_logits self then - fold_left Qmax (tl r) (hd 0 r)
          else if Routine.use_entropy self then sumQ (map entr (softmax r))
          else - fold_left Qmax (tl (softmax r)) (hd 0 (softmax r)))
          (model_forward inputs))).
Proof.
  unfold Routine.test_scores, Routine.probs_of. rewrite Hbin.
  set (L := model_forward inputs) in *.
  unfold Tensor.reduce_dim. simpl.
  rewrite (mapM_ok_In Tensor.max_f
             (fun r => fold_left Qmax (tl r) (hd 0 r))).
  2:{ intros r Hr. apply in_map_iff in Hr as [r0 [<- Hr0]].
      destruct (softmax r0) eqn:E; [exfalso; exact (Hsm r0 Hr0 E) |].
      reflexivity. }
  cbn [bind].
  destruct (Routine.use_logits self) eqn:El.
  - rewrite (mapM_ok_In Tensor.max_f
               (fun r => fold_left Qmax (tl r) (hd 0 r))).
    2:{ intros r Hr. destruct r as [| x r]; [exfalso; exact (Hlg eq_refl _ Hr eq_refl) |].
        reflexivity. }
    simpl. rewrite !map_map. reflexivity.
  - destruct (Routine.use_entropy self).
    + simpl. rewrite (mapM_ok_In Tensor.sum_f sumQ) by reflexivity.
      simpl. rewrite !map_map. reflexivity.
    + simpl. rewrite !map_map. reflexivity.
Qed.

Lemma single_ood_scores_per_sample_witness :
  Routine.binary_cls example_single = false /\
  Routine.test_scores nat example_forward (fun r => r) (fun q => q)
    (fun q => q) unit example_single 3%nat
  = Ok (Tensor.T2 [[3; 1]; [2; 0]], Tensor.T1 [-3; -2]).
Proof.
  split; [reflexivity |].
  rewrite (single_ood_scores_per_sample nat example_forward (fun r => r)
             (fun q => q) (fun q => q) unit example_single eq_refl 3%nat).
  - reflexivity.
  - intros r Hr. simpl in Hr. destruct Hr as [<- | [<- | []]]; discriminate.
  - intros H. discriminate.
Defined.

(** For one class ([binary_cls]), [probs] is squeezed to one value per
    sample, so [probs.max(dim=-1)] and [entr(probs).sum(dim=-1)] reduce
    over the batch: without [use_logits], [test_step] yields a single
    OOD value for the whole batch, minus the largest probability of the
    batch or the sum of [entr] over the batch. *)
Theorem single_binary_ood_score_is_batch_scalar (X : Type)
    (model_forward : X -> list (list Q)) (softmax : list Q -> list Q)
    (sigmoid entr : Q -> Q) (CalSet : Type) (self : Routine.Single CalSet)
    (Hbin : Routine.binary_cls self = true)
    (Hl : Routine.use_logits self = false) (inputs : X)
    (Hrows : Forall (fun r => List.length r = 1%nat) (model_forward inputs))
    (Hne : model_forward inputs <> []) :
  let p := map (fun r => sigmoid (hd 0 r)) (model_forward inputs) in
  Routine.test_scores X model_forward softmax sigmoid entr CalSet self inputs
  = Ok (Tensor.T1 p,
        Tensor.T0 (if Routine.use_entropy self then sumQ (map entr p)
                   else - fold_left Qmax (tl p) (hd 0 p))).
Proof.
  intros p.
  unfold Routine.test_scores, Routine.probs_of. rewrite Hbin.
  unfold Tensor.squeeze_last.
  replace (forallb (fun r => Nat.eqb (List.length r) 1)
             (map (map sigmoid) (model_forward inputs))) with true.
  2:{ symmetry. apply forallb_forall. intros r Hr.
      apply in_map_iff in Hr as [r0 [<- Hr0]].
      rewrite Forall_forall in Hrows. rewrite length_map, (Hrows r0 Hr0).
      reflexivity. }
  replace (map (fun r => hd 0 r) (map (map sigmoid) (model_forward inputs)))
    with p.
  2:{ unfold p. rewrite map_map. apply map_ext_in. intros r Hr.
      rewrite Forall_forall in Hrows. specialize (Hrows r Hr).
      destruct r as [| x r]; [discriminate | reflexivity]. }
  assert (Hp : p <> []).
  { unfold p. destruct (model_forward inputs); [congruence | discriminate]. }
  destruct p as [| x p'] eqn:Ep; [congruence |].
  unfold Tensor.reduce_dim. simpl. rewrite Hl.
  destruct (Routine.use_entropy self); reflexivity.
Qed.

Lemma single_binary_ood_score_is_batch_scalar_witness :
  Routine.test_scores nat (fun _ => [[1]; [3]; [2]]) (fun r => r)
    (fun q => q) (fun q => q) unit example_binary 0%nat
  = Ok (Tensor.T1 [1; 3; 2], Tensor.T0 (-3)).
Proof.
  rewrite (single_binary_ood_score_is_batch_scalar nat
             (fun _ => [[1]; [3]; [2]]) (fun r => r) (fun q => q)
             (fun q => q) unit example_binary eq_refl eq_refl 0%nat).
  - reflexivity.
  - repeat constructor.
  - discriminate.
Defined.

(** The constructor accepts [mixtype = "kernel_warping"] with a
    [dist_sim] other than ["emb"] and ["inp"] (it does not check
    [dist_sim]; the OOD criteria valid and the alphas non-negative), and
    [training_step] of the routine it builds then applies no mixing: it
    returns the loss of the unmixed batch. *)
Theorem kernel_warping_other_dist_sim_trains_unmixed (X : Type)
    (feats_forward : X -> X) (CalSet TrainBatch : Type)
    (batch_inputs : TrainBatch -> X)
    (apply_mix : Routine.mix_policy -> TrainBatch -> option X -> TrainBatch)
    (train_loss : TrainBatch -> Q)
    num_classes mixmode dist_sim kernel_tau_max kernel_tau_std
    mixup_alpha cutmix_alpha ood_detection use_entropy use_logits
    (calibration_set : option CalSet)
    (Hcrit : (Z.b2z use_logits + Z.b2z use_entropy <= 1)%Z)
    (Hm : 0 <= mixup_alpha) (Hc : 0 <= cutmix_alpha)
    (Hd : ~ In dist_sim ["emb"; "inp"]%string) :
  exists s,
    Routine.init_single CalSet num_classes "kernel_warping" mixmode
      dist_sim kernel_tau_max kernel_tau_std mixup_alpha cutmix_alpha
      ood_detection use_entropy use_logits calibration_set = Ok s /\
    forall batch,
      Routine.training_step X feats_forward CalSet TrainBatch batch_inputs
        apply_mix train_loss s batch = Ok (train_loss batch).
Proof.
  assert (Hinit : exists s,
    Routine.init_single CalSet num_classes "kernel_warping" mixmode
      dist_sim kernel_tau_max kernel_tau_std mixup_alpha cutmix_alpha
      ood_detection use_entropy use_logits calibration_set = Ok s).
  { unfold Routine.init_single.
    rewrite (proj2 (Z.ltb_ge 1 _) Hcrit), !Qltb_nonneg by assumption.
    eexists. reflexivity. }
  destruct Hinit as [s Hinit]. exists s. split; [exact Hinit |].
  destruct (init_single_inv _ _ _ _ _ _ _ _ _ _ _ _ _ _ Hinit)
    as [_ [_ [Hmt [Hds _]]]].
  intros batch. unfold Routine.training_step. rewrite Hmt, Hds.
  replace (dist_sim =? "emb")%string with false
    by (symmetry; apply String.eqb_neq; intros ->; apply Hd; simpl; auto).
  replace (dist_sim =? "inp")%string with false
    by (symmetry; apply String.eqb_neq; intros ->; apply Hd; simpl; auto).
  reflexivity.
Qed.

Lemma kernel_warping_other_dist_sim_trains_unmixed_witness :
  (Z.b2z false + Z.b2z false <= 1)%Z /\ 0 <= 1 # 5 /\ 0 <= 0 /\
  ~ In "cos"%string ["emb"; "inp"]%string /\
  exists s,
    Routine.init_single unit 10 "kernel_warping" "elem" "cos" 1 (1 # 2)
      (1 # 5) 0 false false false None = Ok s /\
    Routine.training_step nat (fun x => x) unit nat (fun b => b)
      (fun _ b _ => S b) (fun b => inject_Z (Z.of_nat b)) s 4%nat
    = Ok 4.
Proof.
  assert (Hcrit : (Z.b2z false + Z.b2z false <= 1)%Z) by (simpl; lia).
  assert (Hm : 0 <= 1 # 5) by (vm_compute; discriminate).
  assert (Hc : 0 <= 0) by (vm_compute; discriminate).
  assert (Hd : ~ In "cos"%string ["emb"; "inp"]%string)
    by (simpl; intros [H | [H | []]]; discriminate).
  split; [exact Hcrit |]. split; [exact Hm |]. split; [exact Hc |].
  split; [exact Hd |].
  destruct (kernel_warping_other_dist_sim_trains_unmixed nat (fun x => x)
              unit nat (fun b => b) (fun _ b _ => S b)
              (fun b => inject_Z (Z.of_nat b)) 10 "elem" "cos" 1 (1 # 2)
              (1 # 5) 0 false false false None Hcrit Hm Hc Hd)
    as [s [Hs Ht]].
  exists s. split; [exact Hs | exact (Ht 4%nat)].
Defined.

(* ------------------------------------------------------------------ *)
(** ** The ensemble routine: averaged probabilities and batch sizes *)

Lemma map_chunks {A B} (h : list A -> B) (b : nat) :
  forall (n : nat) (l : list A),
  map h (Tensor.chunks n b l)
  = map (fun e => h (firstn b (skipn (e * b) l))) (seq 0 n).
Proof.
  induction n as [| n IH]; intros l; simpl; [reflexivity |].
  f_equal. rewrite IH, <- seq_shift, map_map. apply map_ext. intros e.
  rewrite skipn_skipn. simpl. rewrite Nat.add_comm. reflexivity.
Qed.

(** [ClassificationEnsemble.validation_step] scores sample [i] of a
    batch of [b] samples with, for each class, the mean over the
    estimators [e] of the softmax of row [e * b + i] of the stacked
    output (more than one class, [n * b] rows for [n] estimators). *)
Theorem ensemble_validation_probs_average (X : Type)
    (model_forward : X -> list (list Q)) (softmax : list Q -> list Q)
    (sigmoid : Q -> Q) (CalSet : Type) (self : Ensemble.Ensemble CalSet)
    (Hbin : Routine.binary_cls (Ensemble.base self) = false)
    (inputs : X) (b : nat)
    (Hn : (0 < Ensemble.num_estimators self)%nat)
    (Hlen : List.length (model_forward inputs)
            = (Ensemble.num_estimators self * b)%nat) :
  exists P,
    Ensemble.validation_probs X model_forward softmax sigmoid CalSet self
      inputs = Ok (Tensor.T2 P) /\
    List.length P = b /\
    forall i, (i < b)%nat ->
    nth_error P i
    = Some (map meanQ (Tensor.transpose
        (map (fun e => softmax (nth (e * b + i) (model_forward inputs) []))
           (seq 0 (Ensemble.num_estimators self))))).
Proof.
  set (n := Ensemble.num_estimators self) in *.
  set (L := model_forward inputs) in *.
  unfold Ensemble.validation_probs, Tensor.rearrange_nbc. fold n L.
  rewrite Hlen.
  replace (Nat.eqb n 0) with false by (symmetry; apply Nat.eqb_neq; lia).
  rewrite (Nat.mul_comm n b), Nat.Div0.mod_mul, Nat.div_mul by lia.
  cbn [orb negb Nat.eqb bind]. rewrite Hbin, mean_dim1_T3.
  eexists. split; [reflexivity |].
  assert (HL : List.length L = (n * b)%nat) by exact Hlen.
  destruct (chunks_spec (list Q) n b L HL) as [Hcl [Hcall _]].
  assert (Hcne : Tensor.chunks n b L <> []).
  { intros E. rewrite E in Hcl. simpl in Hcl. lia. }
  destruct (transpose_spec (list Q) [] b _ Hcne Hcall) as [Htl Htn].
  split.
  - rewrite !length_map. exact Htl.
  - intros i Hi.
    rewrite !nth_error_map, (Htn i Hi). simpl.
    rewrite map_map, map_chunks. do 3 f_equal. apply map_ext_in. intros e _.
    rewrite nth_firstn, nth_skipn.
    replace (Nat.ltb i b) with true by (symmetry; apply Nat.ltb_lt; exact Hi).
    reflexivity.
Qed.

Lemma ensemble_validation_probs_average_witness :
  Routine.binary_cls (Ensemble.base example_ensemble) = false /\
  (0 < Ensemble.num_estimators example_ensemble)%nat /\
  exists P,
    Ensemble.validation_probs nat
      (fun _ => [[1; 0]; [0; 1]; [1 # 2; 1 # 2]; [1; 0]])
      (fun r => r) (fun q => q) unit example_ensemble 0%nat
    = Ok (Tensor.T2 P) /\ List.length P = 2%nat.
Proof.
  split; [reflexivity |]. split; [simpl; lia |].
  assert (Hn : (0 < Ensemble.num_estimators example_ensemble)%nat)
    by (simpl; lia).
  assert (Hl : List.length ((fun _ : nat =>
                 [[1; 0]; [0; 1]; [1 # 2; 1 # 2]; [1; 0]]) 0%nat)
               = (Ensemble.num_estimators example_ensemble * 2)%nat)
    by reflexivity.
  destruct (ensemble_validation_probs_average nat
              (fun _ => [[1; 0]; [0; 1]; [1 # 2; 1 # 2]; [1; 0]])
              (fun r => r) (fun q => q) unit example_ensemble eq_refl 0%nat
              2 Hn Hl) as [P [HP [HL _]]].
  exists P. split; [exact HP | exact HL].
Defined.

(** Both steps of the ensemble routine that rearrange the stacked output
    raise einops' error when the number of rows is not a multiple of
    a positive [num_estimators]. *)
Theorem ensemble_steps_reject_indivisible_batch (X : Type)
    (model_forward : X -> list (list Q)) (softmax : list Q -> list Q)
    (sigmoid entr : Q -> Q) (CalSet : Type)
    (mutual_information variation_ratio : Tensor.tensor -> res Tensor.tensor)
    (self : Ensemble.Ensemble CalSet) (inputs : X)
    (Hn : (0 < Ensemble.num_estimators self)%nat)
    (Hdiv : Nat.modulo (List.length (model_forward inputs))
              (Ensemble.num_estimators self) <> 0%nat) :
  Ensemble.validation_probs X model_forward softmax sigmoid CalSet self inputs
  = Err RuntimeError /\
  Ensemble.test_step_scores X model_forward softmax sigmoid entr CalSet
    mutual_information variation_ratio self inputs = Err RuntimeError.
Proof.
  assert (H : Tensor.rearrange_nbc (Ensemble.num_estimators self)
                (model_forward inputs) = Err RuntimeError).
  { unfold Tensor.rearrange_nbc.
    replace (Nat.eqb (Ensemble.num_estimators self) 0) with false
      by (symmetry; apply Nat.eqb_neq; lia).
    replace (Nat.eqb (Nat.modulo (List.length (model_forward inputs))
                        (Ensemble.num_estimators self)) 0) with false
      by (symmetry; apply Nat.eqb_neq; exact Hdiv).
    reflexivity. }
  unfold Ensemble.validation_probs, Ensemble.test_step_scores.
  rewrite H. split; reflexivity.
Qed.

Lemma ensemble_steps_reject_indivisible_batch_witness :
  (0 < Ensemble.num_estimators example_ensemble)%nat /\
  Nat.modulo (List.length [[1; 0]; [0; 1]; [1; 0]]) 2 <> 0%nat /\
  Ensemble.validation_probs nat (fun _ => [[1; 0]; [0; 1]; [1; 0]])
    (fun r => r) (fun q => q) unit example_ensemble 0%nat
  = Err RuntimeError.
Proof.
  assert (Hm : Nat.modulo (List.length ((fun _ : nat =>
                 [[1; 0]; [0; 1]; [1; 0]]) 0%nat))
                 (Ensemble.num_estimators example_ensemble) <> 0%nat)
    by (vm_compute; discriminate).
  assert (Hn : (0 < Ensemble.num_estimators example_ensemble)%nat)
    by (vm_compute; lia).
  split; [exact Hn |]. split; [exact Hm |].
  destruct (ensemble_steps_reject_indivisible_batch nat
              (fun _ => [[1; 0]; [0; 1]; [1; 0]]) (fun r => r) (fun q => q)
              (fun q => q) unit (fun t => Ok t) (fun t => Ok t)
              example_ensemble 0%nat Hn Hm)
    as [H _].
  exact H.
Defined.

(* ------------------------------------------------------------------ *)
(** ** TinyImageNetDataModule *)

Module TinyProps.
Import TinyImageNetDM.

(** After [setup("test")], [test_dataloader] returns the loader of the
    in-distribution test set (TinyImageNet's "val" split with the test
    transform), followed, with OOD detection, by the loader of the OOD
    set chosen by [ood_ds]: the three downloaded splits of DTD for
    "textures", the "test" split of SVHN or ImageNet-O otherwise. *)
Theorem tiny_imagenet_test_dataloaders (ood_detection : bool)
    (ood_ds : string) (rand_augment_opt : option string)
    (Hds : ood_detection = true ->
           In ood_ds ["imagenet-o"; "svhn"; "textures"]%string) :
  exists dm d,
    setup (init ood_detection ood_ds rand_augment_opt) (Some "test"%string)
      = Ok dm /\
    test_dataloader dm
      = Ok ([DataLoader (Dataset TinyImageNet "val" None TransformTest)]
            ++ (if ood_detection then [DataLoader d] else [])) /\
    (ood_detection = true -> ood_ds = "textures"%string ->
     d = ConcatDataset [Dataset DTD "train" (Some true) TransformTest;
                        Dataset DTD "val" (Some true) TransformTest;
                        Dataset DTD "test" (Some true) TransformTest]) /\
    (ood_detection = true -> ood_ds = "svhn"%string ->
     d = Dataset SVHN "test" None TransformTest) /\
    (ood_detection = true -> ood_ds = "imagenet-o"%string ->
     d = Dataset ImageNetO "test" None TransformTest).
Proof.
  destruct ood_detection.
  - destruct (Hds eq_refl) as [<- | [<- | [<- | []]]].
    all: do 2 eexists.
    all: split; [reflexivity |].
    all: split; [reflexivity |].
    all: repeat split.
    all: intros _ H; first [discriminate H | reflexivity].
  - exists (set_test (init false ood_ds rand_augment_opt)),
      (Dataset TinyImageNet "val" None TransformTest).
    split; [reflexivity |]. split; [reflexivity |].
    repeat split; intros H; discriminate H.
Qed.

Lemma tiny_imagenet_test_dataloaders_witness :
  (true = true -> In "textures"%string
                    ["imagenet-o"; "svhn"; "textures"]%string) /\
  exists dm,
    setup (init true "textures" None) (Some "test"%string) = Ok dm /\
    test_dataloader dm
    = Ok [DataLoader (Dataset TinyImageNet "val" None TransformTest);
          DataLoader (ConcatDataset
            [Dataset DTD "train" (Some true) TransformTest;
             Dataset DTD "val" (Some true) TransformTest;
             Dataset DTD "test" (Some true) TransformTest])].
Proof.
  assert (Hds : true = true -> In "textures"%string
                  ["imagenet-o"; "svhn"; "textures"]%string)
    by (intros _; simpl; auto).
  split; [exact Hds |].
  destruct (tiny_imagenet_test_dataloaders true "textures" None Hds)
    as [dm [d [Hs [Ht [Htx _]]]]].
  exists dm. split; [exact Hs |]. rewrite Ht, (Htx eq_refl eq_refl).
  reflexivity.
Defined.

(** An [ood_ds] outside "imagenet-o", "svhn", "textures" is accepted by
    the constructor, which then leaves [ood_dataset] unassigned: with
    OOD detection, [prepare_data] and [setup] (at every stage) raise
    [AttributeError]; without it, [setup] succeeds at every stage. *)
Theorem tiny_imagenet_unknown_ood_ds (ood_ds : string)
    (rand_augment_opt : option string)
    (Hds : ~ In ood_ds ["imagenet-o"; "svhn"; "textures"]%string) :
  prepare_data (init true ood_ds rand_augment_opt) = Err AttributeError /\
  (forall stage,
     setup (init true ood_ds rand_augment_opt) stage = Err AttributeError) /\
  (forall stage, exists dm,
     setup (init false ood_ds rand_augment_opt) stage = Ok dm).
Proof.
  assert (Hne : forall s, In s ["imagenet-o"; "svhn"; "textures"]%string ->
                          (ood_ds =? s)%string = false).
  { intros s Hs. apply String.eqb_neq. intros ->. exact (Hds Hs). }
  assert (Hi : (ood_ds =? "imagenet-o")%string = false)
    by (apply Hne; simpl; auto).
  assert (Hv : (ood_ds =? "svhn")%string = false)
    by (apply Hne; simpl; auto).
  assert (Ht : (ood_ds =? "textures")%string = false)
    by (apply Hne; simpl; auto).
  unfold prepare_data, setup, init. rewrite Hi, Hv, Ht.
  split; [simpl; rewrite Ht; reflexivity |]. split.
  - intros [s |]; [| simpl; rewrite Ht; reflexivity].
    destruct (s =? "fit")%string, (s =? "test")%string; simpl;
      rewrite Ht; reflexivity.
  - intros [s |]; [| eexists; reflexivity].
    destruct (s =? "fit")%string, (s =? "test")%string; eexists;
      reflexivity.
Qed.

Lemma tiny_imagenet_unknown_ood_ds_witness :
  ~ In "cifar"%string ["imagenet-o"; "svhn"; "textures"]%string /\
  setup (init true "cifar" None) None = Err AttributeError.
Proof.
  assert (Hds : ~ In "cifar"%string ["imagenet-o"; "svhn"; "textures"]%string)
    by (simpl; intros [H | [H | [H | []]]]; discriminate).
  split; [exact Hds |].
  destruct (tiny_imagenet_unknown_ood_ds "cifar" None Hds) as [_ [H _]].
  apply H.
Defined.

(** Only [setup("test")] assigns the test set: after [setup] at any other
    stage (["fit"], [None], ...) of a fresh data module,
    [test_dataloader] raises [AttributeError]. *)
Theorem tiny_imagenet_test_set_needs_test_stage (ood_detection : bool)
    (ood_ds : string) (rand_augment_opt : option string)
    (stage : option string) (Hst : stage <> Some "test"%string)
    (dm : TinyImageNetDataModule)
    (Hs : setup (init ood_detection ood_ds rand_augment_opt) stage = Ok dm) :
  test_dataloader dm = Err AttributeError.
Proof.
  assert (Htest : dm.(test) = None).
  { revert Hs. unfold setup.
    set (dm0 := match stage with
                | None => set_fit (init ood_detection ood_ds rand_augment_opt)
                | Some s => if (s =? "fit")%string
                            then set_fit (init ood_detection ood_ds
                                            rand_augment_opt)
                            else init ood_detection ood_ds rand_augment_opt
                end).
    assert (H0 : dm0.(test) = None)
      by (unfold dm0; destruct stage as [s |]; [destruct (s =? "fit")%string |];
          reflexivity).
    replace (match stage with
             | Some s => if (s =? "test")%string then set_test dm0 else dm0
             | None => dm0 end) with dm0.
    2:{ destruct stage as [s |]; [| reflexivity].
        replace (s =? "test")%string with false; [reflexivity |].
        symmetry. apply String.eqb_neq. intros ->. apply Hst. reflexivity. }
    destruct (TinyImageNetDM.ood_detection dm0).
    - destruct (TinyImageNetDM.ood_ds dm0 =? "textures")%string;
        destruct (TinyImageNetDM.ood_dataset dm0); simpl; intros H; try discriminate H;
        injection H as <-; exact H0.
    - intros H; injection H as <-. exact H0. }
  unfold test_dataloader. rewrite Htest. reflexivity.
Qed.

Lemma tiny_imagenet_test_set_needs_test_stage_witness :
  Some "fit"%string <> Some "test"%string /\
  setup (init true "svhn" None) (Some "fit"%string)
    = Ok (set_ood (Dataset SVHN "test" None TransformTest)
            (set_fit (init true "svhn" None))) /\
  test_dataloader (set_ood (Dataset SVHN "test" None TransformTest)
                     (set_fit (init true "svhn" None))) = Err AttributeError.
Proof.
  assert (Hst : Some "fit"%string <> Some "test"%string) by discriminate.
  assert (Hs : setup (init true "svhn" None) (Some "fit"%string)
               = Ok (set_ood (Dataset SVHN "test" None TransformTest)
                       (set_fit (init true "svhn" None)))) by reflexivity.
  split; [exact Hst |]. split; [exact Hs |].
  exact (tiny_imagenet_test_set_needs_test_stage true "svhn" None _ Hst _ Hs).
Defined.

End TinyProps.
